(** * FileFlow server: MetaRegistry, BlockRegistry and signaling rooms

    A shallow embedding of the transfer core of the FileFlow server
    ([server/src/service/handler.rs], [server/src/service/signaling.rs],
    [server/src/dao/memdb.rs], [server/src/dao/db.rs],
    [server/src/utils/nanoid.rs]).

    The three process-wide stores ([META_INFO_DB], [FILE_BLOCK_DB],
    [SIGNAL_ROOMS]) are threaded explicitly through every handler as one
    [State] record.  Handlers are run one at a time: each handler is a
    function [State -> Response * State].  An [Instant] is a number of
    nanoseconds ([N]); the clock value a handler reads is passed in.
    [MemDB::get] does not look at [exp]: only the one-second sweeper removes
    expired entries, so expiry does not appear in the handlers below. *)

From Stdlib Require Import Ascii.
From stdpp Require Import base gmap list strings pretty.

Open Scope N_scope.

(** ** Rust integer helpers *)

Definition u64_modulus : N := 2 ^ 64.
Definition u64_max : N := u64_modulus - 1.

Definition wrapping_add (a b : N) : N := (a + b) mod u64_modulus.
Definition wrapping_mul (a b : N) : N := (a * b) mod u64_modulus.
Definition saturating_sub (a b : N) : N := a - b.
Definition saturating_add (a b : N) : N := N.min (a + b) u64_max.

(** [<u64 as FromStr>::from_str]: an optional ['+'] sign, then one or more
    decimal digits, the value must fit in 64 bits. *)
Definition digit_value (c : ascii) : option N :=
  let n := N_of_ascii c in
  if (48 <=? n) && (n <=? 57) then Some (n - 48) else None.

Fixpoint parse_digits (acc : N) (s : string) : option N :=
  match s with
  | EmptyString => Some acc
  | String c rest =>
      match digit_value c with
      | Some d =>
          let acc' := acc * 10 + d in
          if u64_max <? acc' then None else parse_digits acc' rest
      | None => None
      end
  end.

Definition parse_u64 (s : string) : option N :=
  match s with
  | EmptyString => None
  | String "+" EmptyString => None
  | String "-" EmptyString => None
  | String "+" rest => parse_digits 0 rest
  | _ => parse_digits 0 s
  end.

(** [format!("{}", n)] and [format!("{:012}", n)] on a [u64]. *)
Definition fmt_u64 (n : N) : string := pretty n.

Fixpoint zeros (k : nat) : string :=
  match k with
  | O => EmptyString
  | S k' => String "0" (zeros k')
  end.

Definition fmt_u64_012 (n : N) : string :=
  let s := fmt_u64 n in zeros (12 - String.length s) +:+ s.

(** ** [dao/memdb.rs]: the TTL key-value store *)

Record CacheEntry (T : Type) := {
  value : T;
  exp : N;
}.
Arguments value {T}.
Arguments exp {T}.
Arguments Build_CacheEntry {T}.

Section MemDB.
Context {T : Type}.

(** [MemDB::insert]: overwrites any entry under [key]; always [Ok(())]. *)
Definition memdb_insert (store : gmap string (CacheEntry T)) (key : string)
    (v : T) (ttl_secs now : N) : gmap string (CacheEntry T) * bool :=
  (<[key := Build_CacheEntry v (now + ttl_secs * 1000000000)]> store, true).

(** [MemDB::update]: stores [value] with the caller's [exp]; always [Ok(())]. *)
Definition memdb_update (store : gmap string (CacheEntry T)) (key : string)
    (v : T) (e : N) : gmap string (CacheEntry T) * bool :=
  (<[key := Build_CacheEntry v e]> store, true).

Definition memdb_get (store : gmap string (CacheEntry T)) (key : string)
    : option (CacheEntry T) := store !! key.

Definition memdb_remove (store : gmap string (CacheEntry T)) (key : string)
    : gmap string (CacheEntry T) * option (CacheEntry T) :=
  (delete key store, store !! key).

(** The sweeper: [store.retain(|_, entry| entry.exp > now)]. *)
Definition memdb_sweep (store : gmap string (CacheEntry T)) (now : N)
    : gmap string (CacheEntry T) :=
  filter (fun kv => now < kv.2.(exp)) store.

End MemDB.

(** ** [dao/db.rs]: the stored records *)

Record MetaInfo := {
  is_using : bool;
  used_by : string;
  block_size : N;
  file_name : string;
  file_size : N;
  done : bool;
}.

(** [MetaInfo::new] *)
Definition MetaInfo_new (file_name : string) (file_size : N) : MetaInfo := {|
  is_using := false;
  used_by := "";
  block_size := 1024 * 1024;
  file_name := file_name;
  file_size := file_size;
  done := false;
|}.

(** [Bytes] as a list of bytes. *)
Abbreviation bytes := (list Byte.byte).

Record FileBlock := {
  data : bytes;
  filename : string;
  start : N;
  end_ : N;
  total : N;
}.

(** The [start] field, for use where a local [start] shadows it. *)
Definition FileBlock_start (fb : FileBlock) : N := fb.(start).

(** [FileBlock::new] *)
Definition FileBlock_new (d : bytes) (fname : string) (s e t : N) : FileBlock :=
  {| data := d; filename := fname; start := s; end_ := e; total := t |}.

(** ** [service/signaling.rs]: rooms *)

Inductive Role := Sender | Receiver.

(** [Role::parse] *)
Definition Role_parse (input : string) : option Role :=
  if String.eqb input "sender" then Some Sender
  else if String.eqb input "receiver" then Some Receiver
  else None.

(** A peer: its connection id and its outgoing channel (a channel handle). *)
Record Peer := {
  id : N;
  tx : N;
}.

Record Room := {
  sender : option Peer;
  receiver : option Peer;
}.

(** [Room::default] *)
Definition Room_default : Room := {| sender := None; receiver := None |}.

(** [Room::is_empty] *)
Definition Room_is_empty (r : Room) : bool :=
  match r.(sender), r.(receiver) with
  | None, None => true
  | _, _ => false
  end.

(** ** Process-wide state and HTTP responses *)

Record State := {
  meta_db : gmap string (CacheEntry MetaInfo);
  block_db : gmap string (CacheEntry FileBlock);
  signal_rooms : gmap string Room;
}.

Definition set_meta_db (st : State) (m : gmap string (CacheEntry MetaInfo)) : State :=
  {| meta_db := m; block_db := st.(block_db); signal_rooms := st.(signal_rooms) |}.
Definition set_block_db (st : State) (b : gmap string (CacheEntry FileBlock)) : State :=
  {| meta_db := st.(meta_db); block_db := b; signal_rooms := st.(signal_rooms) |}.
Definition set_signal_rooms (st : State) (r : gmap string Room) : State :=
  {| meta_db := st.(meta_db); block_db := st.(block_db); signal_rooms := r |}.

(** Response bodies used by the handlers. *)
Inductive Body :=
  | JsonMsg (code : N) (success : bool) (message : string)
  | JsonId (code : N) (success : bool) (id : string)
  | Text (s : string)
  | Octets (d : bytes).

Record Response := {
  status : N;
  headers : list (string * string);
  body : Body;
}.

Definition json_error (code : N) (message : string) : Response :=
  {| status := code; headers := []; body := JsonMsg code false message |}.

(** [HashMap<String, String>] query parameters. *)
Abbreviation Query := (gmap string string).

(** ** [service/handler.rs]: configuration and constants *)

Record Config := {
  MAX_BLOCK_SIZE : N;
  MAX_BLOCKS_PER_FILE : N;
}.

Definition MAX_RETRIES : N := 5.
Definition RETRY_INTERVAL : N := 250.
Definition META_TTL_SECS : N := 60 * 60 * 24.
Definition BLOCK_TTL_SECS : N := 60.
Definition BLOCK_FETCH_MAX_RETRIES : N := 60.

(** [max_total_size]: [max_block_size() * max_blocks_per_file() as u64]. *)
Definition max_total_size (cfg : Config) : N :=
  wrapping_mul cfg.(MAX_BLOCK_SIZE) cfg.(MAX_BLOCKS_PER_FILE).

(** [parse_u64_param] *)
Definition parse_u64_param (v : option string) (field : string) : Response + N :=
  match v with
  | None => inl (json_error 400 ("Missing Parameter: " +:+ field))
  | Some raw =>
      match parse_u64 raw with
      | Some n => inr n
      | None => inl (json_error 400 ("Invalid Parameter: " +:+ field))
      end
  end.

(** ** [utils/nanoid.rs] *)

Definition ALPHABET : string := "0123456789abcdefghijklmnopqrstuvwxyz".
Definition DEFAULT_SIZE : nat := 5.

(** [generate_custom]: [clock_nanos] is the wall-clock reading
    [SystemTime::now().duration_since(UNIX_EPOCH).as_nanos()].  The model
    is for ASCII alphabets, where [alphabet.len()] counts characters and
    [chars().nth(index)] is the byte at [index]; on an empty alphabet the
    source panics on [% 0], which the model does not represent. *)
Fixpoint generate_loop (k : nat) (seed : N) (alphabet : string) : string :=
  match k with
  | O => EmptyString
  | S k' =>
      let seed' := wrapping_add (wrapping_mul seed 1664525) 1013904223 in
      let index := seed' mod N.of_nat (String.length alphabet) in
      let c := match String.get (N.to_nat index) alphabet with
               | Some c => c
               | None => "0"%char
               end in
      String c (generate_loop k' seed' alphabet)
  end.

Definition generate_custom (length : nat) (alphabet : string) (clock_nanos : N) : string :=
  generate_loop length (clock_nanos mod u64_modulus) alphabet.

Definition generate_with_length (length : nat) (clock_nanos : N) : string :=
  generate_custom length ALPHABET clock_nanos.

Definition generate (clock_nanos : N) : string :=
  generate_with_length DEFAULT_SIZE clock_nanos.

(** ** [get_id]: issuing an access ID

    [clock_nanos] is the wall clock read by [nanoid::generate], [now] the
    [Instant] read by [MemDB::insert]. *)
Definition get_id (cfg : Config) (clock_nanos now : N) (query : Query) (st : State)
    : Response * State :=
  let id := generate clock_nanos in
  let file_name := default "" (query !! "file_name") in
  match parse_u64_param (query !! "file_size") "file_size" with
  | inl err => (err, st)
  | inr file_size =>
      if max_total_size cfg <? file_size then
        (json_error 400 "File exceeds maximum allowed size", st)
      else
        let meta_info := MetaInfo_new file_name file_size in
        let '(m', ok) := memdb_insert st.(meta_db) id meta_info META_TTL_SECS now in
        if ok then
          ({| status := 200; headers := []; body := JsonId 200 true id |}, set_meta_db st m')
        else (json_error 500 "Internal Server Error", st)
  end.

(** ** [get_file]: downloading a block *)

(** The block key [format!("{}:{:012}", id, start)], shared by the upload
    and the download path. *)
Definition block_key (id : string) (start : N) : string :=
  id +:+ ":" +:+ fmt_u64_012 start.

Definition claimed_by (v : MetaInfo) (rid : string) : MetaInfo := {|
  is_using := true;
  used_by := rid;
  block_size := v.(block_size);
  file_name := v.(file_name);
  file_size := v.(file_size);
  done := v.(done);
|}.

(** The claim loop of [get_file] (run when [start == 0]).  [fuel] bounds the
    loop by [MAX_RETRIES]; [MemDB::update] always succeeds, so the loop body
    runs once. *)
Fixpoint claim_loop (fuel : nat) (retries : N) (id rid : string) (st : State)
    : Response + State :=
  match fuel with
  | O => inl (json_error 500 "Internal Server Error")
  | S fuel' =>
      match memdb_get st.(meta_db) id with
      | Some current_meta =>
          let v := current_meta.(value) in
          if v.(is_using) && negb (String.eqb v.(used_by) "")
             && negb (String.eqb v.(used_by) rid) then
            inl (json_error 400 "Bad Request")
          else
            let should_update := negb v.(is_using) || String.eqb v.(used_by) ""
                                 || negb (String.eqb v.(used_by) rid) in
            if should_update then
              let '(m', ok) := memdb_update st.(meta_db) id (claimed_by v rid)
                                 current_meta.(exp) in
              if ok then inr (set_meta_db st m')
              else
                let retries' := retries + 1 in
                if MAX_RETRIES <=? retries' then inl (json_error 500 "Internal Server Error")
                else claim_loop fuel' retries' id rid st
            else inr st
      | None =>
          inl {| status := 404; headers := []; body := Text "Access ID Not Found" |}
      end
  end.

(** The block fetch loop: up to [BLOCK_FETCH_MAX_RETRIES] re-reads of the
    block store, which no other request changes in this sequential model. *)
Fixpoint fetch_loop (fuel : nat) (retries : N) (blocks : gmap string (CacheEntry FileBlock))
    (key : string) (start : N) : Response + FileBlock :=
  match memdb_get blocks key with
  | Some file_block =>
      if start <? FileBlock_start file_block.(value) then
        inl (json_error 400 "Wrong start position")
      else inr file_block.(value)
  | None =>
      if BLOCK_FETCH_MAX_RETRIES <=? retries then
        inl (json_error 425 "Block not ready, retry shortly")
      else
        match fuel with
        | O => inl (json_error 425 "Block not ready, retry shortly")
        | S fuel' => fetch_loop fuel' (retries + 1) blocks key start
        end
  end.

Definition content_range (s e t : N) : string :=
  "bytes " +:+ fmt_u64 s +:+ "-" +:+ fmt_u64 e +:+ "/" +:+ fmt_u64 t.

(** [get_file].  The spawned removal of the block is applied to the
    returned state. *)
Definition get_file (id : string) (query : Query) (st : State) : Response * State :=
  match query !! "rid" with
  | None => (json_error 400 "Missing Parameter: rid", st)
  | Some receive_id =>
      match parse_u64_param (query !! "start") "start" with
      | inl err => (err, st)
      | inr start =>
          match (if start =? 0 then claim_loop 5 0 id receive_id st else inr st) with
          | inl err => (err, st)
          | inr st1 =>
              match memdb_get st1.(meta_db) id with
              | None =>
                  ({| status := 404; headers := []; body := Text "Access ID Not Found" |}, st1)
              | Some meta_info =>
                  if negb (String.eqb meta_info.(value).(used_by) receive_id) then
                    (json_error 400 "Wrong Receive ID", st1)
                  else
                    let key := block_key id start in
                    match fetch_loop 61 0 st1.(block_db) key start with
                    | inl err => (err, st1)
                    | inr fb =>
                        let st2 := set_block_db st1 (memdb_remove st1.(block_db) key).1 in
                        ({| status := 206;
                            headers := [("Content-Name", fb.(filename));
                                        ("Content-Type", "application/octet-stream");
                                        ("Content-Range",
                                          content_range (FileBlock_start fb) fb.(end_) fb.(total))];
                            body := Octets fb.(data) |}, st2)
                    end
              end
          end
      end
  end.

(** ** [done]: marking a transfer complete *)

Definition with_done (v : MetaInfo) : MetaInfo := {|
  is_using := v.(is_using);
  used_by := v.(used_by);
  block_size := v.(block_size);
  file_name := v.(file_name);
  file_size := v.(file_size);
  done := true;
|}.

Definition done_handler (id : string) (st : State) : Response * State :=
  match memdb_get st.(meta_db) id with
  | Some meta_info =>
      let '(m', ok) := memdb_update st.(meta_db) id (with_done meta_info.(value))
                         meta_info.(exp) in
      if ok then
        ({| status := 200; headers := [];
            body := JsonMsg 200 true "Download completion marked successfully" |},
         set_meta_db st m')
      else (json_error 500 "Internal Server Error", st)
  | None => (json_error 404 "Not Found", st)
  end.

(** ** Signaling: [register_peer], [unregister_peer], [mark_receiver_state] *)

Definition register_peer (rooms : gmap string Room) (room_id : string) (role : Role)
    (peer_id peer_tx : N) : bool * gmap string Room :=
  (* rooms.entry(room_id).or_default() *)
  let room := default Room_default (rooms !! room_id) in
  let rooms1 := <[room_id := room]> rooms in
  let peer := {| id := peer_id; tx := peer_tx |} in
  match role with
  | Sender =>
      match room.(sender) with
      | Some _ => (false, rooms1)
      | None => (true, <[room_id := {| sender := Some peer; receiver := room.(receiver) |}]> rooms1)
      end
  | Receiver =>
      match room.(receiver) with
      | Some _ => (false, rooms1)
      | None => (true, <[room_id := {| sender := room.(sender); receiver := Some peer |}]> rooms1)
      end
  end.

Definition peer_is (p : option Peer) (peer_id : N) : bool :=
  match p with
  | Some peer => peer.(id) =? peer_id
  | None => false
  end.

Definition unregister_peer (rooms : gmap string Room) (room_id : string) (role : Role)
    (peer_id : N) : gmap string Room :=
  match rooms !! room_id with
  | None => rooms
  | Some room =>
      let room' :=
        match role with
        | Sender =>
            if peer_is room.(sender) peer_id
            then {| sender := None; receiver := room.(receiver) |} else room
        | Receiver =>
            if peer_is room.(receiver) peer_id
            then {| sender := room.(sender); receiver := None |} else room
        end in
      if Room_is_empty room' then delete room_id rooms else <[room_id := room']> rooms
  end.

Definition mark_receiver_state (room_id : string) (is_using_ : bool) (rid : option string)
    (st : State) : State :=
  match memdb_get st.(meta_db) room_id with
  | None => st
  | Some meta_info =>
      let v := meta_info.(value) in
      if negb is_using_ && v.(done) then st
      else
        let new_used_by :=
          match rid with
          | Some r => r
          | None => if negb is_using_ then "" else v.(used_by)
          end in
        let v' := {| is_using := is_using_; used_by := new_used_by;
                     block_size := v.(block_size); file_name := v.(file_name);
                     file_size := v.(file_size); done := v.(done) |} in
        set_meta_db st (memdb_update st.(meta_db) room_id v' meta_info.(exp)).1
  end.

(** Outcome of a signaling connection attempt. *)
Inductive ConnectOutcome :=
  | UpgradeRejected   (* 400 from [signal_ws], no upgrade *)
  | RoomTaken         (* [register_peer] refused, socket closed *)
  | Connected.

(** [signal_ws] followed by the registration part of [handle_socket]. *)
Definition signal_connect (room_id role_str : string) (rid : option string)
    (peer_id peer_tx : N) (st : State) : ConnectOutcome * State :=
  match Role_parse role_str with
  | None => (UpgradeRejected, st)
  | Some role =>
      let rid_empty := String.eqb (default "" rid) "" in
      match role, rid_empty with
      | Receiver, true => (UpgradeRejected, st)
      | _, _ =>
          let '(ok, rooms') := register_peer st.(signal_rooms) room_id role peer_id peer_tx in
          let st1 := set_signal_rooms st rooms' in
          if ok then
            match role, rid with
            | Receiver, Some r => (Connected, mark_receiver_state room_id true (Some r) st1)
            | _, _ => (Connected, st1)
            end
          else (RoomTaken, st1)
      end
  end.

(** The teardown part of [handle_socket], once the socket tasks end. *)
Definition signal_disconnect (room_id : string) (role : Role) (peer_id : N) (st : State)
    : State :=
  let st1 := set_signal_rooms st (unregister_peer st.(signal_rooms) room_id role peer_id) in
  match role with
  | Receiver => mark_receiver_state room_id false None st1
  | Sender => st1
  end.

(** ** [upload_file]: uploading a block *)

(** [FileInfo], the JSON info part. *)
Record FileInfo := {
  info_filename : string;
  info_start : N;
  info_end : N;
  info_total : N;
}.

(** A multipart field: its name, and its body as [field.bytes()] reads it
    ([None] when the read fails). *)
Record Field := {
  field_name : option string;
  field_bytes : option bytes;
}.

(** One [multipart.next_field()] result; the end of the list is [Ok(None)]. *)
Inductive NextField :=
  | FieldOk (f : Field)
  | FieldErr.

Abbreviation Multipart := (list NextField).

(** The message [format!("Maximum number of blocks per file reached ({})", n)]. *)
Definition max_blocks_message (n : N) : string :=
  "Maximum number of blocks per file reached (" +:+ fmt_u64 n +:+ ")".

(** The block-count loop over the keys of the block store, with its early
    exit once [max_blocks] is reached. *)
Fixpoint count_blocks (keys : list string) (prefix : string) (max_blocks : N)
    (block_count : N) : N :=
  match keys with
  | [] => block_count
  | key :: keys' =>
      let block_count' := if String.prefix prefix key then block_count + 1 else block_count in
      if max_blocks <=? block_count' then block_count'
      else count_blocks keys' prefix max_blocks block_count'
  end.

(** [store.keys()]: the iteration order of the [HashMap] is unspecified;
    the keys are taken in the order of [map_to_list]. *)
Definition store_keys {T} (store : gmap string (CacheEntry T)) : list string :=
  (map_to_list store).*1.

Section Upload.

(** [serde_json::from_slice::<FileInfo>] *)
Variable from_slice : bytes -> option FileInfo.

(** The part of [upload_file] from reading the info part up to the length
    check: either an error response, or the validated
    [(filename, start, end, total, data)]. *)
Definition upload_validate (cfg : Config) (mp : Multipart)
    : Response + (string * N * N * N * bytes) :=
  match mp with
  | [] => inl (json_error 400 "Bad Request: Missing info part")
  | FieldErr :: _ => inl (json_error 500 "Internal Server Error")
  | FieldOk field :: rest =>
      match field.(field_name) with
      | None => inl (json_error 400 "Field name is missing")
      | Some name =>
      if negb (String.eqb name "info") then inl (json_error 400 "First part must be info") else
      match field.(field_bytes) with
      | None => inl (json_error 500 "Failed to read file data")
      | Some d =>
      match from_slice d with
      | None => inl (json_error 400 "Failed to parse info json")
      | Some info =>
      let filename := info.(info_filename) in
      let start := info.(info_start) in
      let end_ := info.(info_end) in
      let total := info.(info_total) in
      if (end_ <? start) || (total =? 0) || (total <=? start) then
        inl (json_error 400 "Invalid file range")
      else if max_total_size cfg <? total then
        inl (json_error 400 "File exceeds maximum allowed size")
      else
      match rest with
      | [] => inl (json_error 400 "Missing file part")
      | FieldErr :: _ => inl (json_error 500 "Internal Server Error")
      | FieldOk field2 :: _ =>
          match field2.(field_name) with
          | None => inl (json_error 400 "Field name is missing")
          | Some name2 =>
          if negb (String.eqb name2 "file") then inl (json_error 400 "Second part must be file") else
          match field2.(field_bytes) with
          | None => inl (json_error 500 "Internal Server Error: Failed to read file data")
          | Some data =>
          if cfg.(MAX_BLOCK_SIZE) <? N.of_nat (length data) then
            inl (json_error 400 "Block size exceeds maximum limitation")
          else
          let expected_len := saturating_add (saturating_sub end_ start) 1 in
          if negb (N.of_nat (length data) =? expected_len) then
            inl (json_error 400 "Block size mismatch")
          else inr (filename, start, end_, total, data)
          end
          end
      end
      end
      end
      end
  end.

(** The admission part of [upload_file]: the block-count limit, then the
    single [BlockRegistry] insert. *)
Definition upload_accept (cfg : Config) (now : N) (id : string)
    (blk : string * N * N * N * bytes) (st : State) : Response * State :=
  let '(filename, start, end_, total, data) := blk in
  let prefix := id +:+ ":" in
  let block_count := count_blocks (store_keys st.(block_db)) prefix
                       cfg.(MAX_BLOCKS_PER_FILE) 0 in
  if cfg.(MAX_BLOCKS_PER_FILE) <=? block_count then
    (json_error 400 (max_blocks_message cfg.(MAX_BLOCKS_PER_FILE)), st)
  else
    let file_block := FileBlock_new data filename start end_ total in
    let '(b', ok) := memdb_insert st.(block_db) (block_key id start) file_block
                       BLOCK_TTL_SECS now in
    if ok then
      ({| status := 200; headers := []; body := JsonMsg 200 true "Upload Success" |},
       set_block_db st b')
    else (json_error 500 "Internal Server Error", st).

Definition upload_file (cfg : Config) (now : N) (id : string) (mp : Multipart) (st : State)
    : Response * State :=
  match memdb_get st.(meta_db) id with
  | None => (json_error 404 "Missing Access ID", st)
  | Some _ =>
      match upload_validate cfg mp with
      | inl err => (err, st)
      | inr blk => upload_accept cfg now id blk st
      end
  end.

End Upload.

(** ** The operations that mutate an existing [MetaInfo] entry *)

Inductive MetaOp :=
  | OpGetFile (id : string) (query : Query)
  | OpDone (id : string)
  | OpConnect (room_id role_str : string) (rid : option string) (peer_id peer_tx : N)
  | OpDisconnect (room_id : string) (role : Role) (peer_id : N).

Definition run_op (op : MetaOp) (st : State) : State :=
  match op with
  | OpGetFile id query => (get_file id query st).2
  | OpDone id => (done_handler id st).2
  | OpConnect room_id role_str rid peer_id peer_tx =>
      (signal_connect room_id role_str rid peer_id peer_tx st).2
  | OpDisconnect room_id role peer_id => signal_disconnect room_id role peer_id st
  end.

Definition empty_state : State :=
  {| meta_db := ∅; block_db := ∅; signal_rooms := ∅ |}.

Definition cfg_default : Config :=
  {| MAX_BLOCK_SIZE := 1024 * 1024; MAX_BLOCKS_PER_FILE := 1024 |}.

(** ** Further handlers and helpers *)

(** [get_status]: the JSON [data] object of a 200 answer. *)
Record StatusData := {
  st_file_name : string;
  st_file_size : N;
  st_is_using : bool;
  st_done : bool;
}.

Definition get_status (id : string) (st : State) : N * option StatusData :=
  match memdb_get st.(meta_db) id with
  | Some meta_info =>
      (200, Some {| st_file_name := meta_info.(value).(file_name);
                    st_file_size := meta_info.(value).(file_size);
                    st_is_using := meta_info.(value).(is_using);
                    st_done := meta_info.(value).(done) |})
  | None => (404, None)
  end.

(** [str::trim]: strips leading and trailing [char::is_whitespace]
    characters, the Unicode White_Space set.  The string is the UTF-8 byte
    sequence [env::var] returned (valid UTF-8); the one-byte members are
    U+0009 to U+000D and U+0020. *)
Definition is_whitespace (c : ascii) : bool :=
  let n := N_of_ascii c in ((9 <=? n) && (n <=? 13)) || (n =? 32).

(** The three-byte UTF-8 encodings of White_Space: U+1680 (E1 9A 80),
    U+2000 to U+200A (E2 80 80..8A), U+2028, U+2029, U+202F (E2 80 A8, A9,
    AF), U+205F (E2 81 9F) and U+3000 (E3 80 80). *)
Definition is_whitespace3 (b1 b2 b3 : N) : bool :=
  ((b1 =? 225) && (b2 =? 154) && (b3 =? 128)) ||
  ((b1 =? 226) && (b2 =? 128) &&
     (((128 <=? b3) && (b3 <=? 138)) || (b3 =? 168) || (b3 =? 169) || (b3 =? 175))) ||
  ((b1 =? 226) && (b2 =? 129) && (b3 =? 159)) ||
  ((b1 =? 227) && (b2 =? 128) && (b3 =? 128)).

(** The two-byte ones: U+0085 (C2 85) and U+00A0 (C2 A0). *)
Definition is_whitespace2 (b1 b2 : N) : bool :=
  (b1 =? 194) && ((b2 =? 133) || (b2 =? 160)).

(** The byte length of the White_Space character that starts [l], 0 if
    [l] does not start with one. *)
Definition ws_len (l : list ascii) : nat :=
  match l with
  | c1 :: rest =>
      if is_whitespace c1 then 1 else
      match rest with
      | c2 :: rest2 =>
          if is_whitespace2 (N_of_ascii c1) (N_of_ascii c2) then 2 else
          match rest2 with
          | c3 :: _ =>
              if is_whitespace3 (N_of_ascii c1) (N_of_ascii c2) (N_of_ascii c3) then 3 else 0
          | [] => 0
          end
      | [] => 0
      end
  | [] => 0
  end.

(** The byte length of the White_Space character that ends a string,
    given its bytes in reverse order [rl]. *)
Definition ws_len_rev (rl : list ascii) : nat :=
  match rl with
  | c1 :: rest =>
      if is_whitespace c1 then 1 else
      match rest with
      | c2 :: rest2 =>
          if is_whitespace2 (N_of_ascii c2) (N_of_ascii c1) then 2 else
          match rest2 with
          | c3 :: _ =>
              if is_whitespace3 (N_of_ascii c3) (N_of_ascii c2) (N_of_ascii c1) then 3 else 0
          | [] => 0
          end
      | [] => 0
      end
  | [] => 0
  end.

(** Dropping whitespace characters from the front: every step removes at
    least one byte, so [length l] steps suffice. *)
Fixpoint strip_front (len : list ascii -> nat) (fuel : nat) (l : list ascii) : list ascii :=
  match fuel with
  | O => l
  | S fuel' =>
      match len l with
      | O => l
      | k => strip_front len fuel' (drop k l)
      end
  end.

Definition trim_start (s : string) : string :=
  let l := String.list_ascii_of_string s in
  String.string_of_list_ascii (strip_front ws_len (length l) l).

Definition trim_end (s : string) : string :=
  let rl := rev (String.list_ascii_of_string s) in
  String.string_of_list_ascii (rev (strip_front ws_len_rev (length rl) rl)).

Definition trim (s : string) : string := trim_end (trim_start s).

(** [read_env_u64]: [env] is [env::var(key)], [None] for [Err(_)]. *)
Definition read_env_u64 (env : option string) (default : N) : N :=
  match env with
  | Some raw =>
      match parse_u64 (trim raw) with
      | Some v => if 0 <? v then v else default
      | None => default
      end
  | None => default
  end.

(** [read_env_usize] on a 64-bit target ([usize::MAX = u64::MAX]). *)
Definition read_env_usize (env : option string) (default : N) : N :=
  match env with
  | Some raw =>
      match parse_u64 (trim raw) with
      | Some v => if 0 <? v then N.min v u64_max else default
      | None => default
      end
  | None => default
  end.

(** The configuration read from [MAX_BLOCK_SIZE] and [MAX_BLOCKS_PER_FILE]. *)
Definition read_config (env_block_size env_blocks : option string) : Config :=
  {| MAX_BLOCK_SIZE := read_env_u64 env_block_size (1024 * 1024);
     MAX_BLOCKS_PER_FILE := read_env_usize env_blocks 1024 |}.

(** [forward_message]: the channel a text frame from [role] is sent on. *)
Definition forward_message (rooms : gmap string Room) (room_id : string) (role : Role)
    : option N :=
  match rooms !! room_id with
  | Some room =>
      match role with
      | Sender => option_map tx room.(receiver)
      | Receiver => option_map tx room.(sender)
      end
  | None => None
  end.

(** Whether a string contains [':']. *)
Fixpoint has_colon (s : string) : bool :=
  match s with
  | EmptyString => false
  | String c rest => Ascii.eqb c ":" || has_colon rest
  end.

(** ** Sample inputs *)

Definition q_issue (name size : string) : Query :=
  <["file_size" := size]> (<["file_name" := name]> ∅).

Definition q_download (rid start : string) : Query :=
  <["rid" := rid]> (<["start" := start]> ∅).

(** The state after one [get_id] for ["a.bin"] with the wall clock at 0:
    the access ID is ["7ut0b"]. *)
Definition st_issued : State := (get_id cfg_default 0 0 (q_issue "a.bin" "10") empty_state).2.

(** ** Properties, sample inputs and sample states *)

(** The property C1 asks for: issuing an ID never replaces the entry of a
    live transfer. *)
Definition issue_never_overwrites : Prop :=
  forall cfg clock_nanos now query st k e,
    st.(meta_db) !! k = Some e ->
    (get_id cfg clock_nanos now query st).2.(meta_db) !! k = Some e.

(** The response [get_file] sends for a stored block. *)
Definition block_response (fname : string) (s e t : N) (d : bytes) : Response :=
  {| status := 206;
     headers := [("Content-Name", fname);
                 ("Content-Type", "application/octet-stream");
                 ("Content-Range", content_range s e t)];
     body := Octets d |}.

(** The sample upload: the info part decodes to [a.bin], bytes 0 to 9 of 10. *)
Definition sample_info (_ : bytes) : option FileInfo :=
  Some {| info_filename := "a.bin"; info_start := 0; info_end := 9; info_total := 10 |}.

Definition sample_bytes : bytes :=
  [Byte.x30; Byte.x31; Byte.x32; Byte.x33; Byte.x34;
   Byte.x35; Byte.x36; Byte.x37; Byte.x38; Byte.x39].

Definition sample_multipart : Multipart :=
  [FieldOk {| field_name := Some "info"; field_bytes := Some [] |};
   FieldOk {| field_name := Some "file"; field_bytes := Some sample_bytes |}].

(** [st_issued] after the receiver ["r1"] claimed block 0 of ["7ut0b"]. *)
Definition st_claimed : State := (get_file "7ut0b" (q_download "r1" "0") st_issued).2.

(** What a mutation of an entry may change: [is_using], [used_by] and
    [done] (the last only from false to true). *)
Definition entry_frame (e e' : CacheEntry MetaInfo) : Prop :=
  e'.(exp) = e.(exp) /\
  e'.(value).(file_name) = e.(value).(file_name) /\
  e'.(value).(file_size) = e.(value).(file_size) /\
  e'.(value).(block_size) = e.(value).(block_size) /\
  (e.(value).(done) = true -> e'.(value).(done) = true).

(** Key by key, no entry appears or disappears and each entry changes
    within [entry_frame]. *)
Definition meta_frame (m m' : gmap string (CacheEntry MetaInfo)) : Prop :=
  forall k, match m !! k, m' !! k with
            | None, None => True
            | Some e, Some e' => entry_frame e e'
            | _, _ => False
            end.

(** The invariant C2 states: an entry is in use exactly when [used_by] is
    non-empty. *)
Definition meta_entry_ok (v : MetaInfo) : bool :=
  Bool.eqb v.(is_using) (negb (String.eqb v.(used_by) "")).

Definition meta_inv (st : State) : Prop :=
  forall k e, st.(meta_db) !! k = Some e -> meta_entry_ok e.(value) = true.

(** The number of keys of the block store under [prefix]. *)
Definition blocks_with_prefix (keys : list string) (prefix : string) : N :=
  N.of_nat (length (filter (fun k => String.prefix prefix k = true) keys)).

Definition cfg_one_block : Config :=
  {| MAX_BLOCK_SIZE := 1024 * 1024; MAX_BLOCKS_PER_FILE := 1 |}.

Definition entry_claimed_r1 : CacheEntry MetaInfo :=
  Build_CacheEntry {| is_using := true; used_by := "r1"; block_size := 1024 * 1024;
                      file_name := "a.bin"; file_size := 10; done := false |}
                   (0 + META_TTL_SECS * 1000000000).

(** The slot a role occupies in a room. *)
Definition slot (r : Room) (role : Role) : option Peer :=
  match role with
  | Sender => r.(sender)
  | Receiver => r.(receiver)
  end.

(** Every room in the registry has an occupied slot. *)
Definition rooms_inv (rooms : gmap string Room) : Prop :=
  forall k r, rooms !! k = Some r -> Room_is_empty r = false.

Definition rooms_one_sender : gmap string Room :=
  {[ "7ut0b" := {| sender := Some {| id := 1; tx := 1 |}; receiver := None |} ]}.

(** The download requests whose [rid] parameter is not the empty string;
    the other operations are unrestricted. *)
Definition op_rid_nonempty (op : MetaOp) : Prop :=
  match op with
  | OpGetFile _ query => query !! "rid" <> Some ""
  | _ => True
  end.

Example generate_0 : generate 0 = "7ut0b".
Proof. reflexivity. Qed.

Example block_key_sample : block_key "7ut0b" 10 = "7ut0b:000000000010".
Proof. reflexivity. Qed.

(** ** Lemmas about the stores and the loops *)

Lemma memdb_update_lookup_eq {T} (m : gmap string (CacheEntry T)) k v e :
  (memdb_update m k v e).1 !! k = Some (Build_CacheEntry v e).
Proof. unfold memdb_update. simpl. apply lookup_insert_eq. Qed.

Lemma memdb_update_lookup_ne {T} (m : gmap string (CacheEntry T)) k k' v e :
  k <> k' -> (memdb_update m k v e).1 !! k' = m !! k'.
Proof. intros Hne. unfold memdb_update. simpl. by apply lookup_insert_ne. Qed.

(** For the holder of the claim, the claim loop succeeds, keeps the block
    store and keeps the holder. *)
Lemma claim_loop_holder n retries id rid st mi :
  st.(meta_db) !! id = Some mi -> mi.(value).(used_by) = rid ->
  exists st', claim_loop (S n) retries id rid st = inr st' /\
    st'.(block_db) = st.(block_db) /\
    exists mi', st'.(meta_db) !! id = Some mi' /\ mi'.(value).(used_by) = rid.
Proof.
  intros Hget Hrid. simpl. unfold memdb_get. rewrite Hget, Hrid, String.eqb_refl.
  rewrite !andb_false_r. simpl.
  destruct (negb (is_using (value mi)) || String.eqb rid "") eqn:Hsu.
  - eexists. split; [reflexivity|]. split; [reflexivity|].
    eexists. simpl. split; [apply memdb_update_lookup_eq|]. reflexivity.
  - eexists. split; [reflexivity|]. split; [reflexivity|]. eauto.
Qed.

(** The claim loop succeeds for every requester the entry admits: one
    that already holds it, or any requester while the entry is not in use
    or has an empty [used_by].  It keeps the block store and leaves the
    entry held by the requester. *)
Lemma claim_loop_admits n retries id rid st mi :
  st.(meta_db) !! id = Some mi ->
  mi.(value).(used_by) = rid \/ mi.(value).(is_using) = false \/ mi.(value).(used_by) = "" ->
  exists st', claim_loop (S n) retries id rid st = inr st' /\
    st'.(block_db) = st.(block_db) /\
    exists mi', st'.(meta_db) !! id = Some mi' /\ mi'.(value).(used_by) = rid.
Proof.
  intros Hget Hadm. simpl. unfold memdb_get. rewrite Hget.
  assert (Hc : is_using (value mi) && negb (String.eqb (used_by (value mi)) "")
               && negb (String.eqb (used_by (value mi)) rid) = false).
  { destruct Hadm as [Hr | [Hu | He]].
    - rewrite Hr, String.eqb_refl. apply andb_false_r.
    - rewrite Hu. reflexivity.
    - rewrite He. simpl. rewrite andb_false_r. reflexivity. }
  rewrite Hc.
  destruct (negb (is_using (value mi)) || String.eqb (used_by (value mi)) ""
            || negb (String.eqb (used_by (value mi)) rid)) eqn:Hsu.
  - eexists. split; [reflexivity|]. split; [reflexivity|].
    eexists. simpl. split; [apply memdb_update_lookup_eq|]. reflexivity.
  - eexists. split; [reflexivity|]. split; [reflexivity|]. exists mi. split; [exact Hget|].
    apply orb_false_iff in Hsu as [_ Hne]. apply negb_false_iff, String.eqb_eq in Hne.
    exact Hne.
Qed.

(** For every block present in the store at [block_key id start], the
    fetch loop returns it at once. *)
Lemma fetch_loop_present fuel retries blocks key start fb e :
  blocks !! key = Some (Build_CacheEntry fb e) -> FileBlock_start fb = start ->
  fetch_loop fuel retries blocks key start = inr fb.
Proof.
  intros Hget Hs. destruct fuel; simpl; unfold memdb_get; rewrite Hget; simpl;
    rewrite Hs, N.ltb_irrefl; reflexivity.
Qed.

(** ** C1: issuing an access ID *)

(** C1 (code bug): [get_id] has no collision check and no retry.  Two
    [get_id] calls that read the same wall-clock value generate the same
    access ID ["7ut0b"], and the second call replaces the MetaInfo of the
    live first transfer with a fresh one: issuing an ID does overwrite a
    live transfer. *)
Lemma get_id_collision_overwrites : ~ issue_never_overwrites.
Proof.
  unfold issue_never_overwrites. intros H.
  specialize (H cfg_default 0 5 (q_issue "b.bin" "20") st_issued "7ut0b").
  vm_compute in H. specialize (H _ eq_refl). discriminate H.
Qed.

(** ** C3: upload then download *)

(** C3: after an accepted upload of the block [(fname, s, e, t, d)] under
    [id] (status 200), a download of [id] at offset [s] by the claiming
    receiver answers 206 with exactly the bytes [d], the file name [fname]
    and [Content-Range: bytes s-e/t]: upload and download key the block by
    the same [block_key id s].  The claiming receiver is the one that holds
    the claim ([used_by = rid]) or, at offset 0, one that claims in the same
    request an entry not in use or with an empty [used_by]. *)
Theorem upload_then_download from_slice cfg now id mp st rid query fname s e t d mi :
  upload_validate from_slice cfg mp = inr (fname, s, e, t, d) ->
  (upload_file from_slice cfg now id mp st).1.(status) = 200 ->
  st.(meta_db) !! id = Some mi ->
  mi.(value).(used_by) = rid \/
    (s = 0 /\ (mi.(value).(is_using) = false \/ mi.(value).(used_by) = "")) ->
  query !! "rid" = Some rid ->
  parse_u64_param (query !! "start") "start" = inr s ->
  (get_file id query (upload_file from_slice cfg now id mp st).2).1 =
    block_response fname s e t d.
Proof.
  intros Hval Hok Hmeta Hrid Hq Hstart.
  unfold upload_file in *. unfold memdb_get in *. rewrite Hmeta in *. rewrite Hval in *.
  unfold upload_accept in *.
  destruct (MAX_BLOCKS_PER_FILE cfg <=? _) eqn:Hcount; [simpl in Hok; discriminate|].
  simpl. clear Hok Hcount.
  set (st1 := set_block_db st _).
  assert (Hmeta1 : st1.(meta_db) !! id = Some mi) by exact Hmeta.
  assert (Hblk1 : st1.(block_db) !! block_key id s =
            Some (Build_CacheEntry (FileBlock_new d fname s e t)
                    (now + BLOCK_TTL_SECS * 1000000000)))
    by (simpl; apply lookup_insert_eq).
  clearbody st1.
  unfold get_file. rewrite Hq, Hstart.
  assert (Hclaim : exists st2,
            (if s =? 0 then claim_loop 5 0 id rid st1 else inr st1) = inr st2 /\
            st2.(block_db) = st1.(block_db) /\
            exists mi2, st2.(meta_db) !! id = Some mi2 /\ mi2.(value).(used_by) = rid).
  { destruct (s =? 0) eqn:Hs0.
    - apply claim_loop_admits with (mi := mi); [exact Hmeta1|].
      destruct Hrid as [Hr | [_ Hadm]]; auto.
    - destruct Hrid as [Hr | [Hs _]].
      + exists st1. eauto.
      + subst s. discriminate. }
  destruct Hclaim as (st2 & -> & Hb2 & mi2 & Hm2 & Hu2).
  unfold memdb_get. rewrite Hm2, Hu2, String.eqb_refl. cbn -[fetch_loop].
  rewrite (fetch_loop_present _ _ _ _ _ (FileBlock_new d fname s e t)
             (now + BLOCK_TTL_SECS * 1000000000)); [reflexivity | | reflexivity].
  rewrite Hb2. exact Hblk1.
Qed.

(** The first download of a fresh ID: the receiver ["r1"] claims the Open
    entry ["7ut0b"] in the same request that fetches the uploaded block. *)
Lemma upload_then_download_witness :
  (get_file "7ut0b" (q_download "r1" "0")
     (upload_file sample_info cfg_default 7 "7ut0b" sample_multipart st_issued).2).1 =
  block_response "a.bin" 0 9 10 sample_bytes.
Proof.
  apply (upload_then_download sample_info cfg_default 7 "7ut0b" sample_multipart st_issued
           "r1" (q_download "r1" "0") "a.bin" 0 9 10 sample_bytes
           (Build_CacheEntry (MetaInfo_new "a.bin" 10) (0 + META_TTL_SECS * 1000000000)));
    try reflexivity; try (vm_compute; reflexivity).
  right. split; [reflexivity|]. left. reflexivity.
Defined.

(** ** C4 and C5: the claim phase *)

(** C4: when [id] is claimed by [rid'] (in use, [used_by = rid'] non-empty),
    a download at offset 0 by a different [rid] is answered 400 and the
    whole state, the MetaInfo entry included, is left as it was. *)
Theorem claim_by_other_rejected id rid rid' query st mi :
  st.(meta_db) !! id = Some mi ->
  mi.(value).(is_using) = true -> mi.(value).(used_by) = rid' -> rid' <> "" ->
  rid <> rid' ->
  query !! "rid" = Some rid ->
  parse_u64_param (query !! "start") "start" = inr 0 ->
  get_file id query st = (json_error 400 "Bad Request", st).
Proof.
  intros Hget Husing Hby Hne Hdiff Hq Hstart.
  unfold get_file. rewrite Hq, Hstart. simpl.
  unfold memdb_get. rewrite Hget, Husing, Hby.
  replace (String.eqb rid' "") with false by (symmetry; apply String.eqb_neq; exact Hne).
  replace (String.eqb rid' rid) with false
    by (symmetry; apply String.eqb_neq; intros ->; apply Hdiff; reflexivity).
  reflexivity.
Qed.

Lemma claim_by_other_rejected_witness :
  get_file "7ut0b" (q_download "r2" "0") st_claimed = (json_error 400 "Bad Request", st_claimed).
Proof.
  apply (claim_by_other_rejected "7ut0b" "r2" "r1" (q_download "r2" "0") st_claimed
           (Build_CacheEntry {| is_using := true; used_by := "r1"; block_size := 1024 * 1024;
                                file_name := "a.bin"; file_size := 10; done := false |}
                             (0 + META_TTL_SECS * 1000000000)));
    try reflexivity; discriminate.
Defined.

(** C5: when [id] is already claimed by [rid] (in use, [used_by = rid]
    non-empty), the claim loop of a repeated download at offset 0 by [rid]
    makes no update, and the download leaves the MetaRegistry as it was:
    the entry stays claimed by [rid]. *)
Theorem claim_by_holder_idempotent id rid query st mi :
  st.(meta_db) !! id = Some mi ->
  mi.(value).(is_using) = true -> mi.(value).(used_by) = rid -> rid <> "" ->
  query !! "rid" = Some rid ->
  parse_u64_param (query !! "start") "start" = inr 0 ->
  claim_loop 5 0 id rid st = inr st /\
  (get_file id query st).2.(meta_db) = st.(meta_db).
Proof.
  intros Hget Husing Hby Hne Hq Hstart.
  assert (Hloop : claim_loop 5 0 id rid st = inr st).
  { simpl. unfold memdb_get. rewrite Hget, Husing, Hby, String.eqb_refl.
    replace (String.eqb rid "") with false by (symmetry; apply String.eqb_neq; exact Hne).
    reflexivity. }
  split; [exact Hloop|].
  unfold get_file. rewrite Hq, Hstart. simpl (0 =? 0). rewrite Hloop.
  unfold memdb_get. rewrite Hget, Hby, String.eqb_refl. cbn -[fetch_loop].
  destruct (fetch_loop _ _ _ _ _); reflexivity.
Qed.

Lemma claim_by_holder_idempotent_witness :
  claim_loop 5 0 "7ut0b" "r1" st_claimed = inr st_claimed /\
  (get_file "7ut0b" (q_download "r1" "0") st_claimed).2.(meta_db) = st_claimed.(meta_db).
Proof.
  apply (claim_by_holder_idempotent "7ut0b" "r1" (q_download "r1" "0") st_claimed
           (Build_CacheEntry {| is_using := true; used_by := "r1"; block_size := 1024 * 1024;
                                file_name := "a.bin"; file_size := 10; done := false |}
                             (0 + META_TTL_SECS * 1000000000)));
    try reflexivity; discriminate.
Defined.

(** ** The frame of the MetaInfo mutations *)

Lemma entry_frame_refl e : entry_frame e e.
Proof. unfold entry_frame. auto 10. Qed.

Lemma meta_frame_refl m : meta_frame m m.
Proof. intros k. destruct (m !! k); auto using entry_frame_refl. Qed.

Lemma meta_frame_trans m1 m2 m3 : meta_frame m1 m2 -> meta_frame m2 m3 -> meta_frame m1 m3.
Proof.
  intros H12 H23 k. specialize (H12 k). specialize (H23 k).
  destruct (m1 !! k) as [e1|], (m2 !! k) as [e2|], (m3 !! k) as [e3|]; try contradiction; auto.
  destruct H12 as (? & ? & ? & ? & ?), H23 as (? & ? & ? & ? & ?).
  repeat split; congruence || auto.
Qed.

Lemma meta_frame_update m k e v :
  m !! k = Some e -> entry_frame e (Build_CacheEntry v e.(exp)) ->
  meta_frame m (memdb_update m k v e.(exp)).1.
Proof.
  intros Hget Hf k'. destruct (decide (k = k')) as [<-|Hne].
  - rewrite memdb_update_lookup_eq, Hget. exact Hf.
  - rewrite memdb_update_lookup_ne by exact Hne. destruct (m !! k'); auto using entry_frame_refl.
Qed.

Create HintDb frame.
#[local] Hint Resolve meta_frame_refl entry_frame_refl : frame.

Lemma claim_loop_frame n retries id rid st st' :
  claim_loop n retries id rid st = inr st' -> meta_frame st.(meta_db) st'.(meta_db).
Proof.
  revert retries. induction n as [|n IH]; intros retries H; simpl in H; [discriminate|].
  unfold memdb_get in H. destruct (meta_db st !! id) as [e|] eqn:Hget; [|discriminate].
  destruct (_ && _ && _); [discriminate|].
  destruct (_ || _ || _); [|injection H as <-; auto with frame].
  simpl in H. injection H as <-. simpl.
  apply meta_frame_update; [exact Hget|]. unfold entry_frame. simpl. auto 10.
Qed.

Lemma get_file_frame id query st :
  meta_frame st.(meta_db) (get_file id query st).2.(meta_db).
Proof.
  unfold get_file.
  destruct (query !! "rid") as [rid|]; [|auto with frame].
  destruct (parse_u64_param _ _) as [|start]; [auto with frame|].
  destruct (if start =? 0 then _ else _) as [|st1] eqn:Hc; [auto with frame|].
  assert (H1 : meta_frame st.(meta_db) st1.(meta_db)).
  { destruct (start =? 0); [eapply claim_loop_frame; exact Hc|].
    injection Hc as <-. auto with frame. }
  destruct (memdb_get _ _); [|exact H1].
  destruct (negb _); [exact H1|].
  destruct (fetch_loop _ _ _ _ _); exact H1.
Qed.

Lemma done_handler_frame id st :
  meta_frame st.(meta_db) (done_handler id st).2.(meta_db).
Proof.
  unfold done_handler, memdb_get. destruct (meta_db st !! id) as [e|] eqn:Hget; [|auto with frame].
  simpl. apply meta_frame_update; [exact Hget|]. unfold entry_frame. simpl. auto 10.
Qed.

Lemma mark_receiver_state_frame room_id is_using_ rid st :
  meta_frame st.(meta_db) (mark_receiver_state room_id is_using_ rid st).(meta_db).
Proof.
  unfold mark_receiver_state, memdb_get.
  destruct (meta_db st !! room_id) as [e|] eqn:Hget; [|auto with frame].
  destruct (negb is_using_ && done (value e)); [auto with frame|].
  simpl. apply meta_frame_update; [exact Hget|]. unfold entry_frame. simpl. auto 10.
Qed.

Ltac apply_mark_frame :=
  match goal with
  | |- context [mark_receiver_state ?r ?u ?x ?s1] => exact (mark_receiver_state_frame r u x s1)
  end.

Lemma run_op_frame op st : meta_frame st.(meta_db) (run_op op st).(meta_db).
Proof.
  destruct op as [id query|id|room_id role_str rid peer_id peer_tx|room_id role peer_id]; simpl.
  - apply get_file_frame.
  - apply done_handler_frame.
  - unfold signal_connect.
    destruct (Role_parse role_str) as [role|]; [|auto with frame].
    repeat case_match; simpl; try solve [auto with frame].
    apply_mark_frame.
  - unfold signal_disconnect. destruct role; [auto with frame|].
    apply_mark_frame.
Qed.

(** ** C6: [done] is monotonic *)

(** C6: once an entry has [done = true], no operation (download with its
    claim, [done] again, receiver or sender join or leave) sets it back to
    false, and a receiver leaving the room of a done entry leaves the
    MetaRegistry untouched. *)
Theorem done_monotonic op st k e :
  st.(meta_db) !! k = Some e -> e.(value).(done) = true ->
  (exists e', (run_op op st).(meta_db) !! k = Some e' /\ e'.(value).(done) = true) /\
  (forall peer_id, (signal_disconnect k Receiver peer_id st).(meta_db) = st.(meta_db)).
Proof.
  intros Hget Hdone. split.
  - pose proof (run_op_frame op st k) as Hf. rewrite Hget in Hf.
    destruct ((run_op op st).(meta_db) !! k) as [e'|]; [|contradiction].
    destruct Hf as (_ & _ & _ & _ & Hd). eauto.
  - intros peer_id. unfold signal_disconnect, mark_receiver_state, memdb_get. simpl.
    rewrite Hget, Hdone. reflexivity.
Qed.

Lemma done_monotonic_witness :
  let st := (done_handler "7ut0b" st_claimed).2 in
  st.(meta_db) !! "7ut0b" =
    Some (Build_CacheEntry {| is_using := true; used_by := "r1"; block_size := 1024 * 1024;
                              file_name := "a.bin"; file_size := 10; done := true |}
                           (0 + META_TTL_SECS * 1000000000)) /\
  ((exists e', (run_op (OpDisconnect "7ut0b" Receiver 1) st).(meta_db) !! "7ut0b" = Some e' /\
               e'.(value).(done) = true) /\
   (forall peer_id, (signal_disconnect "7ut0b" Receiver peer_id st).(meta_db) = st.(meta_db))).
Proof.
  intros st. split; [reflexivity|].
  apply (done_monotonic (OpDisconnect "7ut0b" Receiver 1) st "7ut0b"
           (Build_CacheEntry {| is_using := true; used_by := "r1"; block_size := 1024 * 1024;
                                file_name := "a.bin"; file_size := 10; done := true |}
                             (0 + META_TTL_SECS * 1000000000))); reflexivity.
Defined.

(** ** C7: the frame of every mutation *)

(** C7: every operation that mutates an existing MetaInfo entry keeps its
    expiry instant [exp], [file_name], [file_size] and [block_size]: only
    [is_using], [used_by] and [done] can change, and the TTL is never
    extended. *)
Theorem mutation_frame op st k e :
  st.(meta_db) !! k = Some e ->
  exists e', (run_op op st).(meta_db) !! k = Some e' /\
    e'.(exp) = e.(exp) /\
    e'.(value).(file_name) = e.(value).(file_name) /\
    e'.(value).(file_size) = e.(value).(file_size) /\
    e'.(value).(block_size) = e.(value).(block_size).
Proof.
  intros Hget. pose proof (run_op_frame op st k) as Hf. rewrite Hget in Hf.
  destruct ((run_op op st).(meta_db) !! k) as [e'|]; [|contradiction].
  destruct Hf as (Hexp & Hname & Hsize & Hbs & _). exists e'. auto.
Qed.

Lemma mutation_frame_witness :
  exists e', (run_op (OpGetFile "7ut0b" (q_download "r1" "0")) st_issued).(meta_db) !! "7ut0b" = Some e' /\
    e'.(exp) = 0 + META_TTL_SECS * 1000000000 /\
    e'.(value).(file_name) = "a.bin" /\
    e'.(value).(file_size) = 10 /\
    e'.(value).(block_size) = 1024 * 1024.
Proof.
  apply (mutation_frame (OpGetFile "7ut0b" (q_download "r1" "0")) st_issued "7ut0b"
           (Build_CacheEntry (MetaInfo_new "a.bin" 10) (0 + META_TTL_SECS * 1000000000))).
  reflexivity.
Defined.

(** ** C2: [is_using] and [used_by] *)

(** C2 (code bug): [get_file] takes the [rid] query parameter as it comes,
    also when it is empty (the signaling endpoint refuses an empty [rid] for a
    receiver; the download endpoint does not).  From the freshly issued entry
    ["7ut0b"], which satisfies the invariant, a download at offset 0 with
    [rid=""] stores [is_using = true] with [used_by = ""]. *)
Theorem get_file_empty_rid_breaks_invariant :
  meta_inv st_issued /\
  (run_op (OpGetFile "7ut0b" (q_download "" "0")) st_issued).(meta_db) !! "7ut0b" =
    Some (Build_CacheEntry {| is_using := true; used_by := ""; block_size := 1024 * 1024;
                              file_name := "a.bin"; file_size := 10; done := false |}
                           (0 + META_TTL_SECS * 1000000000)) /\
  ~ meta_inv (run_op (OpGetFile "7ut0b" (q_download "" "0")) st_issued).
Proof.
  assert (Hafter : (run_op (OpGetFile "7ut0b" (q_download "" "0")) st_issued).(meta_db) !! "7ut0b" =
    Some (Build_CacheEntry {| is_using := true; used_by := ""; block_size := 1024 * 1024;
                              file_name := "a.bin"; file_size := 10; done := false |}
                           (0 + META_TTL_SECS * 1000000000))) by reflexivity.
  split; [|split; [exact Hafter|]].
  - intros k e Hk.
    assert (Heq : st_issued.(meta_db) =
              {[ "7ut0b" := Build_CacheEntry (MetaInfo_new "a.bin" 10)
                                             (0 + META_TTL_SECS * 1000000000) ]})
      by reflexivity.
    rewrite Heq in Hk. apply lookup_singleton_Some in Hk as [_ <-]. reflexivity.
  - intros Hinv. specialize (Hinv _ _ Hafter). discriminate Hinv.
Qed.

(** ** C8: the block-count limit *)

Lemma blocks_with_prefix_cons k keys prefix :
  blocks_with_prefix (k :: keys) prefix =
  (if String.prefix prefix k then 1 else 0) + blocks_with_prefix keys prefix.
Proof.
  unfold blocks_with_prefix. rewrite filter_cons.
  destruct (String.prefix prefix k); simpl; lia.
Qed.

(** Started below the limit, the loop counts up to the limit and stops
    there: its result is the smaller of the limit and the count. *)
Lemma count_blocks_min keys prefix max_blocks c :
  c < max_blocks ->
  count_blocks keys prefix max_blocks c = N.min (c + blocks_with_prefix keys prefix) max_blocks.
Proof.
  revert c. induction keys as [|k keys IH]; intros c Hc; simpl.
  - unfold blocks_with_prefix. simpl. lia.
  - rewrite blocks_with_prefix_cons.
    destruct (String.prefix prefix k);
      destruct (max_blocks <=? _) eqn:Hle;
      [apply N.leb_le in Hle | apply N.leb_gt in Hle | apply N.leb_le in Hle | apply N.leb_gt in Hle];
      try (rewrite IH by lia); lia.
Qed.

(** Whatever the limit, the loop result reaches it exactly when the count
    does. *)
Lemma count_blocks_reaches keys prefix max_blocks :
  (max_blocks <=? count_blocks keys prefix max_blocks 0) =
  (max_blocks <=? blocks_with_prefix keys prefix).
Proof.
  destruct (decide (max_blocks = 0)) as [->|Hne].
  - destruct (N.leb_spec 0 (count_blocks keys prefix 0 0)),
             (N.leb_spec 0 (blocks_with_prefix keys prefix)); lia.
  - rewrite count_blocks_min by lia.
    destruct (N.leb_spec max_blocks (N.min (0 + blocks_with_prefix keys prefix) max_blocks)),
             (N.leb_spec max_blocks (blocks_with_prefix keys prefix)); lia.
Qed.

(** C8: for an upload that passed every other check (the access ID is
    known and [upload_validate] accepted the parts), with [n] the number of
    block-store keys under ["<id>:"], the block is inserted under
    [block_key id start] with answer 200 when [n < MAX_BLOCKS_PER_FILE];
    otherwise the answer is 400 "Maximum number of blocks per file reached"
    and the state is unchanged.  With a positive limit the counting loop
    stops at the limit: its result is [min n MAX_BLOCKS_PER_FILE]. *)
Theorem block_limit_admission from_slice cfg now id mp st mi fname s e t d :
  st.(meta_db) !! id = Some mi ->
  upload_validate from_slice cfg mp = inr (fname, s, e, t, d) ->
  let n := blocks_with_prefix (store_keys st.(block_db)) (id +:+ ":") in
  let res := upload_file from_slice cfg now id mp st in
  (n < cfg.(MAX_BLOCKS_PER_FILE) ->
     res.1.(status) = 200 /\
     res.2 = set_block_db st
               (<[block_key id s := Build_CacheEntry (FileBlock_new d fname s e t)
                                      (now + BLOCK_TTL_SECS * 1000000000)]> st.(block_db))) /\
  (cfg.(MAX_BLOCKS_PER_FILE) <= n ->
     res = (json_error 400 (max_blocks_message cfg.(MAX_BLOCKS_PER_FILE)), st)) /\
  (0 < cfg.(MAX_BLOCKS_PER_FILE) ->
     count_blocks (store_keys st.(block_db)) (id +:+ ":") cfg.(MAX_BLOCKS_PER_FILE) 0 =
     N.min n cfg.(MAX_BLOCKS_PER_FILE)).
Proof.
  intros Hmeta Hval n res. subst res.
  unfold upload_file, memdb_get. rewrite Hmeta, Hval. unfold upload_accept.
  rewrite count_blocks_reaches. fold n.
  split; [|split].
  - intros Hlt. replace (MAX_BLOCKS_PER_FILE cfg <=? n) with false
      by (symmetry; apply N.leb_gt; exact Hlt).
    simpl. split; reflexivity.
  - intros Hge. replace (MAX_BLOCKS_PER_FILE cfg <=? n) with true
      by (symmetry; apply N.leb_le; exact Hge).
    reflexivity.
  - intros Hpos. rewrite count_blocks_min by exact Hpos. reflexivity.
Qed.

(** With a limit of one block: the first upload for ["7ut0b"] (no block
    stored, [n = 0]) is admitted and inserted; a second upload while that
    block is still stored ([n = 1]) is refused with the state unchanged. *)
Lemma block_limit_admission_witness :
  (blocks_with_prefix (store_keys st_claimed.(block_db)) ("7ut0b" +:+ ":") = 0 /\
   (upload_file sample_info cfg_one_block 7 "7ut0b" sample_multipart st_claimed).1.(status) = 200 /\
   (upload_file sample_info cfg_one_block 7 "7ut0b" sample_multipart st_claimed).2 =
     set_block_db st_claimed
       (<[block_key "7ut0b" 0 := Build_CacheEntry (FileBlock_new sample_bytes "a.bin" 0 9 10)
                                   (7 + BLOCK_TTL_SECS * 1000000000)]> st_claimed.(block_db))) /\
  (blocks_with_prefix
     (store_keys (upload_file sample_info cfg_one_block 7 "7ut0b" sample_multipart st_claimed).2.(block_db))
     ("7ut0b" +:+ ":") = 1 /\
   upload_file sample_info cfg_one_block 8 "7ut0b" sample_multipart
     (upload_file sample_info cfg_one_block 7 "7ut0b" sample_multipart st_claimed).2 =
   (json_error 400 (max_blocks_message cfg_one_block.(MAX_BLOCKS_PER_FILE)),
    (upload_file sample_info cfg_one_block 7 "7ut0b" sample_multipart st_claimed).2)).
Proof.
  split.
  - pose proof (block_limit_admission sample_info cfg_one_block 7 "7ut0b" sample_multipart
                  st_claimed entry_claimed_r1 "a.bin" 0 9 10 sample_bytes) as H.
    cbv zeta in H. destruct H as [Hacc _]; [vm_compute; reflexivity | vm_compute; reflexivity |].
    split; [vm_compute; reflexivity|]. apply Hacc. vm_compute. reflexivity.
  - pose proof (block_limit_admission sample_info cfg_one_block 8 "7ut0b" sample_multipart
                  (upload_file sample_info cfg_one_block 7 "7ut0b" sample_multipart st_claimed).2
                  entry_claimed_r1 "a.bin" 0 9 10 sample_bytes) as H.
    cbv zeta in H. destruct H as [_ [Hrej _]]; [vm_compute; reflexivity | vm_compute; reflexivity |].
    split; [vm_compute; reflexivity|]. apply Hrej. vm_compute. intros Hc. discriminate Hc.
Defined.

(** ** C9: signaling rooms *)

(** C9: a room has one sender slot and one receiver slot; a join into an
    occupied slot is refused and leaves the registry as it was (the occupant
    stays); [register_peer] and [unregister_peer] keep every room of the
    registry non-empty, a room whose last peer leaves being deleted. *)
Theorem rooms_invariant rooms room_id role peer_id peer_tx :
  ((exists r p, rooms !! room_id = Some r /\ slot r role = Some p) ->
     register_peer rooms room_id role peer_id peer_tx = (false, rooms)) /\
  (rooms_inv rooms -> rooms_inv (register_peer rooms room_id role peer_id peer_tx).2) /\
  (rooms_inv rooms -> rooms_inv (unregister_peer rooms room_id role peer_id)).
Proof.
  split; [|split].
  - intros (r & p & Hr & Hp). unfold register_peer. rewrite Hr. simpl.
    rewrite (insert_id rooms room_id r Hr).
    destruct role; simpl in Hp; rewrite Hp; reflexivity.
  - intros Hinv k r Hk. unfold register_peer in Hk.
    destruct (rooms !! room_id) as [r0|] eqn:Hr0; simpl in Hk;
      destruct role; repeat case_match; simpl in Hk;
      (destruct (decide (room_id = k)) as [<-|Hne];
       [ rewrite lookup_insert_eq in Hk; injection Hk as <-
       | rewrite !lookup_insert_ne in Hk by exact Hne; exact (Hinv _ _ Hk) ]);
      first [ reflexivity | exact (Hinv _ _ Hr0)
            | unfold Room_is_empty; simpl; case_match; reflexivity
            | discriminate ].
  - intros Hinv k r Hk. unfold unregister_peer in Hk.
    destruct (rooms !! room_id) as [room|] eqn:Hroom; [|exact (Hinv _ _ Hk)].
    match type of Hk with
    | (if Room_is_empty ?r' then _ else _) !! _ = _ => destruct (Room_is_empty r') eqn:He
    end.
    + destruct (decide (room_id = k)) as [<-|Hne].
      * rewrite lookup_delete_eq in Hk. discriminate.
      * rewrite lookup_delete_ne in Hk by exact Hne. exact (Hinv _ _ Hk).
    + destruct (decide (room_id = k)) as [<-|Hne].
      * rewrite lookup_insert_eq in Hk. injection Hk as <-. exact He.
      * rewrite lookup_insert_ne in Hk by exact Hne. exact (Hinv _ _ Hk).
Qed.

Lemma rooms_invariant_witness :
  register_peer rooms_one_sender "7ut0b" Sender 2 2 = (false, rooms_one_sender) /\
  rooms_inv (register_peer rooms_one_sender "7ut0b" Receiver 3 3).2 /\
  rooms_inv (unregister_peer rooms_one_sender "7ut0b" Sender 1).
Proof.
  assert (Hinv : rooms_inv rooms_one_sender).
  { intros k r Hk. unfold rooms_one_sender in Hk.
    apply lookup_singleton_Some in Hk as [_ <-]. reflexivity. }
  split; [|split].
  - apply (rooms_invariant rooms_one_sender "7ut0b" Sender 2 2).
    exists {| sender := Some {| id := 1; tx := 1 |}; receiver := None |}, {| id := 1; tx := 1 |}.
    split; reflexivity.
  - apply (rooms_invariant rooms_one_sender "7ut0b" Receiver 3 3). exact Hinv.
  - apply (rooms_invariant rooms_one_sender "7ut0b" Sender 1 0). exact Hinv.
Defined.

(** ** C10: [upload_file] is atomic on error *)

(** C10: [upload_file] never writes the MetaRegistry, and every answer
    other than 200 (unknown ID, malformed multipart, invalid range, oversize
    total or block, length mismatch, block-count limit) leaves the whole
    state, BlockRegistry included, as it was: all checks run before the
    single insert. *)
Theorem upload_atomic_on_error from_slice cfg now id mp st :
  (upload_file from_slice cfg now id mp st).2.(meta_db) = st.(meta_db) /\
  ((upload_file from_slice cfg now id mp st).1.(status) <> 200 ->
   (upload_file from_slice cfg now id mp st).2 = st).
Proof.
  unfold upload_file.
  destruct (memdb_get (meta_db st) id); [|split; reflexivity].
  destruct (upload_validate from_slice cfg mp) as [err|[[[[fname s] e] t] d]];
    [split; reflexivity|].
  unfold upload_accept.
  destruct (MAX_BLOCKS_PER_FILE cfg <=? _); [split; reflexivity|].
  simpl. split; [reflexivity|]. intros H. contradiction H. reflexivity.
Qed.

(** A first part whose JSON does not decode is refused with 400 and
    nothing stored. *)
Lemma upload_atomic_on_error_witness :
  (upload_file (fun _ => None) cfg_default 7 "7ut0b" sample_multipart st_claimed).1 =
    json_error 400 "Failed to parse info json" /\
  (upload_file (fun _ => None) cfg_default 7 "7ut0b" sample_multipart st_claimed).2 = st_claimed.
Proof.
  split; [vm_compute; reflexivity|].
  apply (proj2 (upload_atomic_on_error (fun _ => None) cfg_default 7 "7ut0b" sample_multipart
                  st_claimed)).
  vm_compute. discriminate.
Defined.

(** ** The C2 invariant away from the empty [rid] *)

Lemma meta_inv_update st k v e :
  meta_inv st -> meta_entry_ok v = true ->
  meta_inv (set_meta_db st (memdb_update st.(meta_db) k v e).1).
Proof.
  intros Hinv Hv k' e' Hk. unfold set_meta_db in Hk. cbn [meta_db] in Hk.
  destruct (decide (k = k')) as [<-|Hne].
  - rewrite memdb_update_lookup_eq in Hk. injection Hk as <-. exact Hv.
  - rewrite memdb_update_lookup_ne in Hk by exact Hne. exact (Hinv _ _ Hk).
Qed.

Lemma claimed_by_ok v rid : rid <> "" -> meta_entry_ok (claimed_by v rid) = true.
Proof.
  intros Hne. unfold meta_entry_ok. simpl.
  destruct (String.eqb_spec rid ""); [contradiction|reflexivity].
Qed.

Lemma claim_loop_inv n retries id rid st st' :
  rid <> "" -> meta_inv st -> claim_loop n retries id rid st = inr st' -> meta_inv st'.
Proof.
  intros Hne Hinv. revert retries. induction n as [|n IH]; intros retries H;
    simpl in H; [discriminate|].
  unfold memdb_get in H. destruct (meta_db st !! id) as [e|]; [|discriminate].
  destruct (_ && _ && _); [discriminate|].
  destruct (_ || _ || _); [|injection H as <-; exact Hinv].
  simpl in H. injection H as <-. apply meta_inv_update; [exact Hinv|].
  apply claimed_by_ok. exact Hne.
Qed.

Lemma mark_receiver_state_inv room_id is_using_ rid st :
  meta_inv st ->
  (is_using_ = true -> exists r, rid = Some r /\ r <> "") ->
  (is_using_ = false -> rid = None) ->
  meta_inv (mark_receiver_state room_id is_using_ rid st).
Proof.
  intros Hinv Htrue Hfalse. unfold mark_receiver_state, memdb_get.
  destruct (meta_db st !! room_id) as [e|]; [|exact Hinv].
  destruct (negb is_using_ && done (value e)); [exact Hinv|].
  apply meta_inv_update; [exact Hinv|]. unfold meta_entry_ok. simpl.
  destruct is_using_.
  - destruct (Htrue eq_refl) as (r & -> & Hr).
    destruct (String.eqb_spec r ""); [contradiction|reflexivity].
  - rewrite (Hfalse eq_refl). reflexivity.
Qed.

(** Outside a download with an empty [rid], every operation keeps the
    C2 invariant: the download claim with [rid=""] is the one way to break
    it. *)
Lemma meta_inv_preserved op st :
  op_rid_nonempty op -> meta_inv st -> meta_inv (run_op op st).
Proof.
  intros Hop Hinv.
  destruct op as [id query|id|room_id role_str rid peer_id peer_tx|room_id role peer_id];
    simpl in *.
  - unfold get_file.
    destruct (query !! "rid") as [rid|]; [|exact Hinv].
    assert (Hne : rid <> "") by (intros ->; apply Hop; reflexivity).
    destruct (parse_u64_param _ _) as [|start]; [exact Hinv|].
    destruct (if start =? 0 then _ else _) as [|st1] eqn:Hc; [exact Hinv|].
    assert (H1 : meta_inv st1).
    { destruct (start =? 0); [eapply claim_loop_inv; eauto|].
      injection Hc as <-. exact Hinv. }
    destruct (memdb_get _ _); [|exact H1].
    destruct (negb _); [exact H1|].
    destruct (fetch_loop _ _ _ _ _); exact H1.
  - unfold done_handler, memdb_get. destruct (meta_db st !! id) as [e|] eqn:Hget; [|exact Hinv].
    simpl. apply meta_inv_update; [exact Hinv|]. exact (Hinv _ _ Hget).
  - unfold signal_connect.
    destruct (Role_parse role_str) as [role|]; [|exact Hinv].
    destruct role; destruct (String.eqb (default "" rid) "") eqn:Hempty;
      try exact Hinv;
      destruct (register_peer (signal_rooms st) room_id _ peer_id peer_tx) as [[|] rooms'];
      simpl; try exact Hinv.
    destruct rid as [r|]; [|exact Hinv].
    apply mark_receiver_state_inv; [exact Hinv| |discriminate].
    intros _. exists r. split; [reflexivity|]. simpl in Hempty.
    apply String.eqb_neq. exact Hempty.
  - unfold signal_disconnect. destruct role; [exact Hinv|].
    apply mark_receiver_state_inv; [exact Hinv|discriminate|reflexivity].
Qed.

(** ** Decimal round trip *)

Lemma digit_value_pretty d : d < 10 -> digit_value (pretty_N_char d) = Some d.
Proof.
  intros Hd.
  assert (d = 0 \/ d = 1 \/ d = 2 \/ d = 3 \/ d = 4 \/ d = 5 \/ d = 6 \/ d = 7 \/
          d = 8 \/ d = 9) as Hcases by lia.
  repeat destruct Hcases as [->|Hcases]; try reflexivity; subst; reflexivity.
Qed.

Lemma parse_digits_pretty x s :
  x <= u64_max -> parse_digits 0 (pretty_N_go x s) = parse_digits x s.
Proof.
  revert s. induction (N.lt_wf_0 x) as [x _ IH]; intros s Hx.
  destruct (decide (x = 0)) as [->|Hne]; [by rewrite pretty_N_go_0|].
  rewrite pretty_N_go_step by lia.
  rewrite IH; [| apply N.div_lt; lia | pose proof (N.div_lt x 10 ltac:(lia) ltac:(lia)); lia].
  simpl. rewrite digit_value_pretty by (apply N.mod_lt; lia).
  pose proof (N.div_mod x 10) as Hdm.
  replace (x / 10 * 10 + x mod 10) with x by lia.
  replace (u64_max <? x) with false by (symmetry; apply N.ltb_ge; exact Hx).
  reflexivity.
Qed.

Lemma pretty_N_go_head x s :
  0 < x -> exists d s', d < 10 /\ pretty_N_go x s = String (pretty_N_char d) s'.
Proof.
  revert s. induction (N.lt_wf_0 x) as [x _ IH]; intros s Hx.
  rewrite pretty_N_go_step by exact Hx.
  destruct (decide (x / 10 = 0)) as [Hz|Hnz].
  - rewrite Hz, pretty_N_go_0. exists (x mod 10), s. split; [apply N.mod_lt; lia|reflexivity].
  - apply IH; [apply N.div_lt; lia | ]. clear IH. revert Hnz. generalize (x / 10). intros. lia.
Qed.

Lemma parse_u64_digit_head d s' :
  d < 10 -> parse_u64 (String (pretty_N_char d) s') = parse_digits 0 (String (pretty_N_char d) s').
Proof.
  intros Hd.
  assert (d = 0 \/ d = 1 \/ d = 2 \/ d = 3 \/ d = 4 \/ d = 5 \/ d = 6 \/ d = 7 \/
          d = 8 \/ d = 9) as Hcases by lia.
  repeat destruct Hcases as [->|Hcases]; try reflexivity; subst; reflexivity.
Qed.

Lemma parse_digits_zeros k t : parse_digits 0 (zeros k +:+ t) = parse_digits 0 t.
Proof. induction k as [|k IH]; [reflexivity|]. exact IH. Qed.

Lemma parse_digits_fmt_u64 n : n <= u64_max -> parse_digits 0 (fmt_u64 n) = Some n.
Proof.
  intros Hn. unfold fmt_u64, pretty, pretty_N.
  destruct (decide (n = 0)) as [->|Hne]; [reflexivity|].
  rewrite parse_digits_pretty by exact Hn. reflexivity.
Qed.

(** [format!("{}", n)] on a [u64] parses back to [n] with [u64::from_str]:
    a [start] or [file_size] printed by a client is read back unchanged
    by [parse_u64_param]. *)
Theorem parse_u64_param_fmt n field :
  n <= u64_max -> parse_u64_param (Some (fmt_u64 n)) field = inr n.
Proof.
  intros Hn. unfold parse_u64_param.
  enough (H : parse_u64 (fmt_u64 n) = Some n) by (rewrite H; reflexivity).
  unfold fmt_u64, pretty, pretty_N.
  destruct (decide (n = 0)) as [->|Hne]; [reflexivity|].
  destruct (pretty_N_go_head n "" ltac:(lia)) as (d & s' & Hd & Hhead).
  rewrite Hhead, parse_u64_digit_head by exact Hd. rewrite <- Hhead.
  rewrite parse_digits_pretty by exact Hn. reflexivity.
Qed.

Lemma parse_u64_param_fmt_witness :
  (4096 <= u64_max) /\ parse_u64_param (Some (fmt_u64 4096)) "start" = inr 4096.
Proof. split; [vm_compute; discriminate|]. apply parse_u64_param_fmt. vm_compute; discriminate. Defined.

(** ** Block keys *)

Lemma has_colon_pretty x s : has_colon (pretty_N_go x s) = has_colon s.
Proof.
  revert s. induction (N.lt_wf_0 x) as [x _ IH]; intros s.
  destruct (decide (x = 0)) as [->|Hne]; [by rewrite pretty_N_go_0|].
  rewrite pretty_N_go_step by lia. rewrite IH by (apply N.div_lt; lia).
  simpl. assert (Hd : x mod 10 < 10) by (apply N.mod_lt; lia).
  assert (x mod 10 = 0 \/ x mod 10 = 1 \/ x mod 10 = 2 \/ x mod 10 = 3 \/ x mod 10 = 4 \/
          x mod 10 = 5 \/ x mod 10 = 6 \/ x mod 10 = 7 \/ x mod 10 = 8 \/ x mod 10 = 9)
    as Hcases by (clear -Hd; revert Hd; generalize (x mod 10); intros m Hm; lia).
  repeat destruct Hcases as [Hc|Hcases]; try (rewrite Hc; reflexivity); rewrite Hcases; reflexivity.
Qed.

Lemma has_colon_fmt_u64_012 n : has_colon (fmt_u64_012 n) = false.
Proof.
  assert (Hf : has_colon (fmt_u64 n) = false).
  { unfold fmt_u64, pretty, pretty_N.
    destruct (decide (n = 0)); [reflexivity|]. rewrite has_colon_pretty. reflexivity. }
  unfold fmt_u64_012. generalize (12 - String.length (fmt_u64 n))%nat as k.
  induction k as [|k IH]; [exact Hf|exact IH].
Qed.

Lemma has_colon_app_colon r p : has_colon (r +:+ String ":" p) = true.
Proof. induction r as [|c r IH]; simpl; [reflexivity|]. rewrite IH. apply orb_true_r. Qed.

Lemma split_at_colon id id' p p' :
  has_colon p = false -> has_colon p' = false ->
  id +:+ String ":" p = id' +:+ String ":" p' -> id = id' /\ p = p'.
Proof.
  intros Hp Hp'. revert id'. induction id as [|c r IH]; intros id' Heq.
  - destruct id' as [|c' r']; simpl in Heq.
    + injection Heq as ->. split; reflexivity.
    + injection Heq as <- Heq. rewrite Heq, has_colon_app_colon in Hp. discriminate.
  - destruct id' as [|c' r']; simpl in Heq.
    + injection Heq as -> Heq. rewrite <- Heq, has_colon_app_colon in Hp'. discriminate.
    + injection Heq as <- Heq. destruct (IH r' Heq) as [-> ->]. split; reflexivity.
Qed.

(** [format!("{}:{:012}", id, start)] is injective: two blocks share a key
    only when they have the same access ID and the same [u64] start offset,
    so blocks of different offsets or of different transfers never
    overwrite each other in the BlockRegistry. *)
Theorem block_key_injective id id' s s' :
  s <= u64_max -> s' <= u64_max ->
  block_key id s = block_key id' s' -> id = id' /\ s = s'.
Proof.
  intros Hs Hs' Heq. unfold block_key in Heq.
  destruct (split_at_colon id id' (fmt_u64_012 s) (fmt_u64_012 s')
              (has_colon_fmt_u64_012 s) (has_colon_fmt_u64_012 s') Heq) as [Hid Hp].
  split; [exact Hid|].
  assert (Hs1 : parse_digits 0 (fmt_u64_012 s) = Some s).
  { unfold fmt_u64_012. rewrite parse_digits_zeros. apply parse_digits_fmt_u64. exact Hs. }
  assert (Hs2 : parse_digits 0 (fmt_u64_012 s') = Some s').
  { unfold fmt_u64_012. rewrite parse_digits_zeros. apply parse_digits_fmt_u64. exact Hs'. }
  rewrite Hp, Hs2 in Hs1. injection Hs1 as ->. reflexivity.
Qed.

Lemma block_key_injective_witness :
  block_key "7ut0b" 0 <> block_key "7ut0b" 1048576 /\ ("7ut0b" = "7ut0b" /\ 7 = 7).
Proof.
  split; [vm_compute; discriminate|].
  apply (block_key_injective "7ut0b" "7ut0b" 7 7); [vm_compute; discriminate | vm_compute; discriminate | reflexivity].
Defined.

(** ** Configuration *)

Lemma parse_digits_bound acc s n :
  acc <= u64_max -> parse_digits acc s = Some n -> n <= u64_max.
Proof.
  revert acc. induction s as [|c s IH]; intros acc Hacc H; simpl in H.
  - injection H as <-. exact Hacc.
  - destruct (digit_value c) as [d|]; [|discriminate].
    destruct (u64_max <? acc * 10 + d) eqn:Hlt; [discriminate|].
    apply N.ltb_ge in Hlt. exact (IH _ Hlt H).
Qed.

Lemma parse_u64_bound s n : parse_u64 s = Some n -> n <= u64_max.
Proof.
  intros H. unfold parse_u64 in H. repeat case_match; subst; try discriminate;
    eapply parse_digits_bound; try exact H; vm_compute; discriminate.
Qed.

(** [read_env_u64] and [read_env_usize] never yield 0 when their default
    is positive: an absent, unparsable or zero setting falls back to the
    default, and a positive setting (surrounding white space trimmed) is
    taken as it is.  So [MAX_BLOCK_SIZE] and [MAX_BLOCKS_PER_FILE] are
    always at least 1. *)
Theorem read_env_positive env default raw v :
  0 < default ->
  0 < read_env_u64 env default /\ 0 < read_env_usize env default /\
  (env = Some raw -> parse_u64 (trim raw) = Some v -> 0 < v ->
   read_env_u64 env default = v /\ read_env_usize env default = v).
Proof.
  intros Hd. split; [|split].
  - unfold read_env_u64. destruct env as [r|]; [|exact Hd].
    destruct (parse_u64 (trim r)) as [w|]; [|exact Hd].
    destruct (0 <? w) eqn:Hw; [apply N.ltb_lt in Hw; exact Hw | exact Hd].
  - unfold read_env_usize. destruct env as [r|]; [|exact Hd].
    destruct (parse_u64 (trim r)) as [w|] eqn:Hp; [|exact Hd].
    destruct (0 <? w) eqn:Hw; [|exact Hd]. apply N.ltb_lt in Hw.
    pose proof (parse_u64_bound _ _ Hp). lia.
  - intros -> Hp Hv. unfold read_env_u64, read_env_usize. rewrite Hp.
    replace (0 <? v) with true by (symmetry; apply N.ltb_lt; exact Hv).
    pose proof (parse_u64_bound _ _ Hp). split; [reflexivity|lia].
Qed.

Lemma read_env_positive_witness :
  read_config (Some " 4096 ") (Some "0") =
    {| MAX_BLOCK_SIZE := 4096; MAX_BLOCKS_PER_FILE := 1024 |} /\
  (0 < read_env_u64 (Some (String (ascii_of_N 194) (String (ascii_of_N 160) "4096"))) (1024 * 1024) /\
   0 < read_env_usize (Some (String (ascii_of_N 194) (String (ascii_of_N 160) "4096"))) (1024 * 1024) /\
   (Some (String (ascii_of_N 194) (String (ascii_of_N 160) "4096")) =
      Some (String (ascii_of_N 194) (String (ascii_of_N 160) "4096")) ->
    parse_u64 (trim (String (ascii_of_N 194) (String (ascii_of_N 160) "4096"))) = Some 4096 ->
    0 < 4096 ->
    read_env_u64 (Some (String (ascii_of_N 194) (String (ascii_of_N 160) "4096"))) (1024 * 1024) = 4096 /\
    read_env_usize (Some (String (ascii_of_N 194) (String (ascii_of_N 160) "4096"))) (1024 * 1024) = 4096)).
Proof.
  split; [reflexivity|].
  apply (read_env_positive (Some (String (ascii_of_N 194) (String (ascii_of_N 160) "4096")))
           (1024 * 1024) (String (ascii_of_N 194) (String (ascii_of_N 160) "4096")) 4096).
  reflexivity.
Defined.

(** ** Access IDs *)

Lemma string_get_lt n s :
  (n < String.length s)%nat ->
  exists c, String.get n s = Some c /\ c ∈ String.list_ascii_of_string s.
Proof.
  revert n. induction s as [|c s IH]; intros n Hn; simpl in Hn; [lia|].
  destruct n as [|n]; simpl.
  - exists c. split; [reflexivity|]. left.
  - destruct (IH n ltac:(lia)) as (c' & Hg & Hin). exists c'. split; [exact Hg|]. right. exact Hin.
Qed.

Lemma generate_loop_shape k seed alphabet :
  alphabet <> "" ->
  String.length (generate_loop k seed alphabet) = k /\
  forall c, c ∈ String.list_ascii_of_string (generate_loop k seed alphabet) ->
            c ∈ String.list_ascii_of_string alphabet.
Proof.
  intros Hne. revert seed. induction k as [|k IH]; intros seed; simpl.
  - split; [reflexivity|]. intros c Hc. inversion Hc.
  - set (seed' := wrapping_add (wrapping_mul seed 1664525) 1013904223).
    destruct (IH seed') as [Hlen Hin].
    assert (Hpos : (0 < String.length alphabet)%nat)
      by (destruct alphabet; [contradiction|simpl; lia]).
    assert (Hidx : (N.to_nat (seed' mod N.of_nat (String.length alphabet)) < String.length alphabet)%nat).
    { assert (seed' mod N.of_nat (String.length alphabet) < N.of_nat (String.length alphabet))
        by (apply N.mod_lt; lia). lia. }
    destruct (string_get_lt _ _ Hidx) as (c0 & Hg & Hc0).
    rewrite Hg. split; [simpl; rewrite Hlen; reflexivity|].
    intros c Hc. simpl in Hc. inversion Hc; subst; [exact Hc0|]. apply Hin. assumption.
Qed.

(** [generate_custom] with a non-empty alphabet yields exactly [length]
    characters, each taken from the alphabet, whatever the clock reads;
    in particular [generate] yields 5 characters of [0-9a-z]. *)
Theorem generate_custom_shape length alphabet clock_nanos :
  alphabet <> "" ->
  String.length (generate_custom length alphabet clock_nanos) = length /\
  forall c, c ∈ String.list_ascii_of_string (generate_custom length alphabet clock_nanos) ->
            c ∈ String.list_ascii_of_string alphabet.
Proof. intros Hne. apply generate_loop_shape. exact Hne. Qed.

Lemma generate_custom_shape_witness :
  String.length (generate 123456789) = 5%nat /\
  forall c, c ∈ String.list_ascii_of_string (generate 123456789) ->
            c ∈ String.list_ascii_of_string ALPHABET.
Proof. apply (generate_custom_shape 5 ALPHABET 123456789). discriminate. Defined.


(** ** [get_id] and [get_status] *)

(** A rejected query parameter is answered 400. *)
Lemma parse_u64_param_err v field err :
  parse_u64_param v field = inl err -> err.(status) = 400.
Proof.
  unfold parse_u64_param. destruct v as [raw|]; [destruct (parse_u64 raw)|];
    intros H; inversion H; reflexivity.
Qed.


(** [get_id] refuses a missing [file_size] with 400 "Missing Parameter:
    file_size", a non-numeric one with 400 "Invalid Parameter: file_size",
    and a size above [max_total_size] with 400 "File exceeds maximum allowed
    size", each time with the state unchanged; it answers nothing but 200
    or 400, and writes nothing unless it answers 200. *)
Theorem get_id_error_unchanged cfg clock_nanos now query st :
  (query !! "file_size" = None ->
     get_id cfg clock_nanos now query st = (json_error 400 "Missing Parameter: file_size", st)) /\
  (forall raw, query !! "file_size" = Some raw -> parse_u64 raw = None ->
     get_id cfg clock_nanos now query st = (json_error 400 "Invalid Parameter: file_size", st)) /\
  (forall file_size, parse_u64_param (query !! "file_size") "file_size" = inr file_size ->
     max_total_size cfg < file_size ->
     get_id cfg clock_nanos now query st =
       (json_error 400 "File exceeds maximum allowed size", st)) /\
  ((get_id cfg clock_nanos now query st).1.(status) = 200 \/
   (get_id cfg clock_nanos now query st).1.(status) = 400) /\
  ((get_id cfg clock_nanos now query st).1.(status) <> 200 ->
   (get_id cfg clock_nanos now query st).2 = st).
Proof.
  unfold get_id. split; [|split; [|split; [|split]]].
  - intros Hn. rewrite Hn. reflexivity.
  - intros raw Hr Hp. unfold parse_u64_param. rewrite Hr, Hp. reflexivity.
  - intros fs Hp Hlt. rewrite Hp.
    replace (max_total_size cfg <? fs) with true by (symmetry; apply N.ltb_lt; exact Hlt).
    reflexivity.
  - destruct (parse_u64_param _ _) as [err|fs] eqn:Hp.
    + right. exact (parse_u64_param_err _ _ _ Hp).
    + destruct (max_total_size cfg <? fs); [right|left]; reflexivity.
  - destruct (parse_u64_param _ _) as [err|fs]; [reflexivity|].
    destruct (max_total_size cfg <? fs); [reflexivity|].
    simpl. intros H. contradiction H. reflexivity.
Qed.

Lemma get_id_error_unchanged_witness :
  get_id cfg_default 0 0 (<["file_name" := "a.bin"]> ∅) st_issued =
    (json_error 400 "Missing Parameter: file_size", st_issued) /\
  get_id cfg_default 0 0 (q_issue "a.bin" "ten") st_issued =
    (json_error 400 "Invalid Parameter: file_size", st_issued) /\
  get_id cfg_default 0 0 (q_issue "big.bin" "2000000000") st_issued =
    (json_error 400 "File exceeds maximum allowed size", st_issued).
Proof.
  split; [|split].
  - apply (get_id_error_unchanged cfg_default 0 0 (<["file_name" := "a.bin"]> ∅) st_issued).
    reflexivity.
  - apply (get_id_error_unchanged cfg_default 0 0 (q_issue "a.bin" "ten") st_issued) with "ten";
      reflexivity.
  - apply (get_id_error_unchanged cfg_default 0 0 (q_issue "big.bin" "2000000000") st_issued)
      with 2000000000; [reflexivity | vm_compute; reflexivity].
Defined.

(** After a successful [get_id], [get_status] on the returned ID reports
    the requested file name and size, not in use and not done. *)
Theorem get_id_then_status cfg clock_nanos now query st file_size :
  parse_u64_param (query !! "file_size") "file_size" = inr file_size ->
  file_size <= max_total_size cfg ->
  (get_id cfg clock_nanos now query st).1.(body) = JsonId 200 true (generate clock_nanos) /\
  get_status (generate clock_nanos) (get_id cfg clock_nanos now query st).2 =
    (200, Some {| st_file_name := default "" (query !! "file_name");
                  st_file_size := file_size; st_is_using := false; st_done := false |}).
Proof.
  intros Hparse Hle. unfold get_id. rewrite Hparse.
  replace (max_total_size cfg <? file_size) with false by (symmetry; apply N.ltb_ge; lia).
  simpl. split; [reflexivity|].
  unfold get_status, memdb_get. simpl. rewrite lookup_insert_eq. reflexivity.
Qed.

Lemma get_id_then_status_witness :
  (get_id cfg_default 0 0 (q_issue "a.bin" "10") empty_state).1.(body) = JsonId 200 true "7ut0b" /\
  get_status "7ut0b" st_issued =
    (200, Some {| st_file_name := "a.bin"; st_file_size := 10; st_is_using := false;
                  st_done := false |}).
Proof.
  apply (get_id_then_status cfg_default 0 0 (q_issue "a.bin" "10") empty_state 10);
    [reflexivity | vm_compute; discriminate].
Defined.

(** ** [get_file]: claim, verification and consumption *)

(** A first download at offset 0 of an entry nobody uses claims it for
    the requesting [rid]: the entry becomes [is_using = true, used_by = rid]
    with its other fields and its expiry unchanged, whatever the fetch phase
    then answers. *)
Theorem get_file_claims_open id rid query st e :
  st.(meta_db) !! id = Some e -> e.(value).(is_using) = false ->
  query !! "rid" = Some rid ->
  parse_u64_param (query !! "start") "start" = inr 0 ->
  (get_file id query st).2.(meta_db) !! id = Some (Build_CacheEntry (claimed_by e.(value) rid) e.(exp)).
Proof.
  intros Hget Hfree Hq Hstart. unfold get_file. rewrite Hq, Hstart.
  change (0 =? 0) with true. cbv iota.
  cbn [claim_loop]. unfold memdb_get at 1. rewrite Hget, Hfree. cbn [andb orb negb].
  unfold memdb_update. cbv iota zeta beta.
  unfold memdb_get. cbn [set_meta_db meta_db]. rewrite lookup_insert_eq.
  cbn [value claimed_by used_by]. rewrite String.eqb_refl. cbn [negb].
  destruct (fetch_loop _ _ _ _ _); cbn; apply lookup_insert_eq.
Qed.

Lemma get_file_claims_open_witness :
  (get_file "7ut0b" (q_download "r1" "0") st_issued).2.(meta_db) !! "7ut0b" =
    Some (Build_CacheEntry (claimed_by (MetaInfo_new "a.bin" 10) "r1")
                           (0 + META_TTL_SECS * 1000000000)).
Proof.
  apply (get_file_claims_open "7ut0b" "r1" (q_download "r1" "0") st_issued
           (Build_CacheEntry (MetaInfo_new "a.bin" 10) (0 + META_TTL_SECS * 1000000000)));
    reflexivity.
Defined.

(** A download at a non-zero offset has no claim phase: it never writes the
    MetaRegistry, and a [rid] other than the entry's [used_by] is answered
    400 "Wrong Receive ID" with the whole state unchanged. *)
Theorem get_file_nonzero_start id rid query st s :
  query !! "rid" = Some rid ->
  parse_u64_param (query !! "start") "start" = inr s -> s <> 0 ->
  (get_file id query st).2.(meta_db) = st.(meta_db) /\
  (forall e, st.(meta_db) !! id = Some e -> e.(value).(used_by) <> rid ->
     get_file id query st = (json_error 400 "Wrong Receive ID", st)).
Proof.
  intros Hq Hstart Hs. unfold get_file. rewrite Hq, Hstart.
  replace (s =? 0) with false by (symmetry; apply N.eqb_neq; exact Hs).
  split.
  - destruct (memdb_get _ _); [|reflexivity]. destruct (negb _); [reflexivity|].
    destruct (fetch_loop _ _ _ _ _); reflexivity.
  - intros e Hget Hne. unfold memdb_get. rewrite Hget.
    replace (String.eqb (used_by (value e)) rid) with false
      by (symmetry; apply String.eqb_neq; exact Hne).
    reflexivity.
Qed.

Lemma get_file_nonzero_start_witness :
  (get_file "7ut0b" (q_download "r2" "10") st_claimed).2.(meta_db) = st_claimed.(meta_db) /\
  get_file "7ut0b" (q_download "r2" "10") st_claimed = (json_error 400 "Wrong Receive ID", st_claimed).
Proof.
  destruct (get_file_nonzero_start "7ut0b" "r2" (q_download "r2" "10") st_claimed 10)
    as [H1 H2]; [reflexivity | reflexivity | discriminate |].
  split; [exact H1|]. apply (H2 entry_claimed_r1); [reflexivity | discriminate].
Defined.

(** Error responses of the claim and fetch phases of [get_file]. *)
Lemma claim_loop_err fuel retries id rid st err :
  claim_loop fuel retries id rid st = inl err -> err.(status) = 400 \/ err.(status) = 500 \/ err.(status) = 404.
Proof.
  revert retries. induction fuel as [|fuel IH]; intros retries H; simpl in H.
  - inversion H; subst; auto.
  - destruct (memdb_get _ _) as [cm|]; [|inversion H; subst; auto].
    destruct (_ && _ && _); [inversion H; subst; auto|].
    destruct (_ || _ || _); [|discriminate].
    unfold memdb_update in H. simpl in H. discriminate.
Qed.

Lemma fetch_loop_err fuel retries blocks key start err :
  fetch_loop fuel retries blocks key start = inl err -> err.(status) = 400 \/ err.(status) = 425.
Proof.
  revert retries. induction fuel as [|fuel IH]; intros retries H; simpl in H;
    (destruct (memdb_get _ _) as [fb|];
     [destruct (_ <? _); inversion H; subst; auto
     | destruct (_ <=? _); [inversion H; subst; auto|]]).
  - inversion H; subst; auto.
  - eapply IH; exact H.
Qed.

(** With the block absent, the fetch loop gives up with 425. *)
Lemma fetch_loop_absent fuel retries blocks key start :
  blocks !! key = None ->
  fetch_loop fuel retries blocks key start = inl (json_error 425 "Block not ready, retry shortly").
Proof.
  intros Habs. revert retries. induction fuel as [|fuel IH]; intros retries; simpl;
    unfold memdb_get; rewrite Habs; destruct (_ <=? _); auto.
Qed.

(** A successful claim leaves the entry in use by the claimant. *)
Lemma claim_loop_ok fuel retries id rid st st1 :
  claim_loop fuel retries id rid st = inr st1 ->
  st1.(block_db) = st.(block_db) /\
  exists e, st1.(meta_db) !! id = Some e /\ e.(value).(is_using) = true /\
            e.(value).(used_by) = rid.
Proof.
  revert retries. induction fuel as [|fuel IH]; intros retries H; simpl in H; [discriminate|].
  unfold memdb_get in H. destruct (meta_db st !! id) as [cm|] eqn:Hget; [|discriminate].
  destruct (is_using (value cm) && _ && _) eqn:Hc; [discriminate|].
  destruct (negb (is_using (value cm)) || _ || _) eqn:Hsu.
  - unfold memdb_update in H. simpl in H. injection H as <-. split; [reflexivity|].
    eexists. simpl. split; [apply lookup_insert_eq|]. simpl. auto.
  - injection H as <-. split; [reflexivity|]. exists cm. split; [exact Hget|].
    apply orb_false_iff in Hsu as [Hsu Hne]. apply orb_false_iff in Hsu as [Hu He].
    apply negb_false_iff in Hu. apply negb_false_iff in Hne.
    apply String.eqb_eq in Hne. auto.
Qed.

(** For the holder of a live claim the claim loop leaves the state as is. *)
Lemma claim_loop_holder_same n retries id rid st e :
  st.(meta_db) !! id = Some e -> e.(value).(is_using) = true -> e.(value).(used_by) = rid ->
  claim_loop (S n) retries id rid st = inr st.
Proof.
  intros Hget Hu Hr. simpl. unfold memdb_get. rewrite Hget, Hu, Hr, String.eqb_refl.
  rewrite andb_false_r. simpl. destruct (String.eqb rid "") eqn:He; [|reflexivity].
  unfold memdb_update. simpl. f_equal.
  assert (Hc : claimed_by (value e) rid = value e).
  { destruct e as [[] ex]; simpl in *; subst; reflexivity. }
  rewrite Hc. destruct e as [v ex]. simpl. rewrite insert_id by exact Hget.
  destruct st; reflexivity.
Qed.

Lemma get_file_206_inv id query st r st' :
  get_file id query st = (r, st') -> r.(status) = 206 ->
  exists rid start st1 e fb,
    query !! "rid" = Some rid /\
    parse_u64_param (query !! "start") "start" = inr start /\
    (if start =? 0 then claim_loop 5 0 id rid st else inr st) = inr st1 /\
    st1.(meta_db) !! id = Some e /\ e.(value).(used_by) = rid /\
    fetch_loop 61 0 st1.(block_db) (block_key id start) start = inr fb /\
    st' = set_block_db st1 (delete (block_key id start) st1.(block_db)).
Proof.
  unfold get_file. intros Heq H206.
  destruct (query !! "rid") as [rid|] eqn:Hq; [|injection Heq as <- <-; discriminate].
  destruct (parse_u64_param _ _) as [err|start] eqn:Hs.
  { injection Heq as <- <-. apply parse_u64_param_err in Hs. congruence. }
  destruct (if start =? 0 then _ else _) as [err|st1] eqn:Hcl.
  { injection Heq as <- <-. destruct (start =? 0).
    - apply claim_loop_err in Hcl. lia.
    - discriminate. }
  unfold memdb_get in Heq. destruct (meta_db st1 !! id) as [e|] eqn:He;
    [|injection Heq as <- <-; discriminate].
  destruct (negb (String.eqb (used_by (value e)) rid)) eqn:Hr;
    [injection Heq as <- <-; discriminate|].
  apply negb_false_iff, String.eqb_eq in Hr.
  destruct (fetch_loop _ _ _ _ _) as [err|fb] eqn:Hf.
  { injection Heq as <- <-. apply fetch_loop_err in Hf. lia. }
  injection Heq as <- <-.
  exists rid, start, st1, e, fb. repeat split; auto.
Qed.

(** A block is delivered at most once: after a 206 answer the block is
    gone from the block store, and the same request again is answered 425
    "Block not ready, retry shortly" with the state unchanged. *)
Theorem get_file_block_consumed id query st r st' :
  get_file id query st = (r, st') -> r.(status) = 206 ->
  exists start,
    parse_u64_param (query !! "start") "start" = inr start /\
    st'.(block_db) !! block_key id start = None /\
    get_file id query st' = (json_error 425 "Block not ready, retry shortly", st').
Proof.
  intros Heq H206.
  destruct (get_file_206_inv id query st r st' Heq H206)
    as (rid & start & st1 & e & fb & Hq & Hs & Hcl & He & Hr & Hf & ->).
  exists start. split; [exact Hs|]. split; [simpl; apply lookup_delete_eq|].
  set (st2 := set_block_db st1 (delete (block_key id start) (block_db st1))).
  assert (Habs : st2.(block_db) !! block_key id start = None) by (simpl; apply lookup_delete_eq).
  assert (Hm : st2.(meta_db) = st1.(meta_db)) by reflexivity.
  assert (Hz' : (if start =? 0 then claim_loop 5 0 id rid st2 else inr st2) = inr st2).
  { destruct (start =? 0); [|reflexivity].
    apply claim_loop_ok in Hcl as [_ (e1 & He1 & Hu1 & Hr1)].
    rewrite He in He1. injection He1 as <-.
    apply (claim_loop_holder_same 4 0 id rid st2 e); [rewrite Hm|..]; auto. }
  clearbody st2. unfold get_file. rewrite Hq, Hs, Hz'.
  unfold memdb_get. rewrite Hm, He, Hr, String.eqb_refl. cbn [negb].
  rewrite fetch_loop_absent by exact Habs. reflexivity.
Qed.

Lemma get_file_block_consumed_witness :
  get_file "7ut0b" (q_download "r1" "0")
    (get_file "7ut0b" (q_download "r1" "0")
       (upload_file sample_info cfg_default 7 "7ut0b" sample_multipart st_claimed).2).2 =
  (json_error 425 "Block not ready, retry shortly",
   (get_file "7ut0b" (q_download "r1" "0")
      (upload_file sample_info cfg_default 7 "7ut0b" sample_multipart st_claimed).2).2).
Proof.
  destruct (get_file_block_consumed "7ut0b" (q_download "r1" "0")
     (upload_file sample_info cfg_default 7 "7ut0b" sample_multipart st_claimed).2
     (get_file "7ut0b" (q_download "r1" "0")
        (upload_file sample_info cfg_default 7 "7ut0b" sample_multipart st_claimed).2).1
     (get_file "7ut0b" (q_download "r1" "0")
        (upload_file sample_info cfg_default 7 "7ut0b" sample_multipart st_claimed).2).2)
    as (start & _ & _ & H); [apply surjective_pairing | vm_compute; reflexivity | exact H].
Defined.

(** ** [done] *)

(** [done] on a missing ID answers 404 "Not Found" and changes nothing; on
    a present one it answers 200, [get_status] then reports [done = true]
    with the other fields unchanged, and a second [done] changes nothing
    more. *)
Theorem done_handler_spec id st :
  match st.(meta_db) !! id with
  | None => done_handler id st = (json_error 404 "Not Found", st)
  | Some e =>
      (done_handler id st).1.(status) = 200 /\
      get_status id (done_handler id st).2 =
        (200, Some {| st_file_name := e.(value).(file_name);
                      st_file_size := e.(value).(file_size);
                      st_is_using := e.(value).(is_using); st_done := true |}) /\
      (done_handler id (done_handler id st).2).2 = (done_handler id st).2
  end.
Proof.
  destruct (meta_db st !! id) as [e|] eqn:Hget.
  - unfold done_handler, memdb_get, memdb_update. rewrite Hget. cbn.
    split; [reflexivity|]. split.
    + unfold get_status, memdb_get. cbn. rewrite lookup_insert_eq. reflexivity.
    + rewrite lookup_insert_eq. cbn. unfold set_meta_db. cbn.
      rewrite insert_insert_eq. destruct e as [[] ex]. reflexivity.
  - unfold done_handler, memdb_get. rewrite Hget. reflexivity.
Qed.

(** ** Signaling *)

(** Registration in a free slot followed by unregistration. *)
Lemma register_then_unregister rooms room_id role peer_id peer_tx :
  rooms_inv rooms ->
  slot (default Room_default (rooms !! room_id)) role = None ->
  (register_peer rooms room_id role peer_id peer_tx).1 = true /\
  unregister_peer (register_peer rooms room_id role peer_id peer_tx).2 room_id role peer_id
    = rooms.
Proof.
  intros Hinv Hfree. unfold register_peer, unregister_peer.
  destruct (rooms !! room_id) as [[s rc]|] eqn:Hr; simpl in Hfree |- *.
  - pose proof (Hinv _ _ Hr) as Hne. unfold Room_is_empty in Hne. simpl in Hne.
    destruct role; simpl in Hfree; subst; simpl;
      (split; [reflexivity|]); rewrite lookup_insert_eq; simpl; rewrite N.eqb_refl; simpl.
    + destruct rc; [|discriminate]. simpl. rewrite !insert_insert_eq. apply insert_id. exact Hr.
    + destruct s; [|discriminate]. simpl. rewrite !insert_insert_eq. apply insert_id. exact Hr.
  - destruct role; simpl; (split; [reflexivity|]); rewrite lookup_insert_eq; simpl;
      rewrite N.eqb_refl; simpl; rewrite delete_insert_eq, delete_insert_eq;
      apply delete_id; exact Hr.
Qed.

(** A peer that registers in a free slot and then unregisters leaves the
    room table as it found it: a room it created is removed again. *)
Theorem register_unregister_roundtrip rooms room_id role peer_id peer_tx :
  rooms_inv rooms ->
  slot (default Room_default (rooms !! room_id)) role = None ->
  (register_peer rooms room_id role peer_id peer_tx).1 = true /\
  unregister_peer (register_peer rooms room_id role peer_id peer_tx).2 room_id role peer_id
    = rooms.
Proof. apply register_then_unregister. Qed.

Lemma register_unregister_roundtrip_witness :
  (register_peer rooms_one_sender "7ut0b" Receiver 2 2).1 = true /\
  unregister_peer (register_peer rooms_one_sender "7ut0b" Receiver 2 2).2 "7ut0b" Receiver 2
    = rooms_one_sender.
Proof.
  apply register_unregister_roundtrip; [|reflexivity].
  intros k r Hk. unfold rooms_one_sender in Hk.
  apply lookup_singleton_Some in Hk as [_ <-]. reflexivity.
Defined.

(** Unregistering a peer id that does not hold the slot (a stale or
    replaced connection) leaves a table with no empty room unchanged. *)
Theorem unregister_stale rooms room_id role peer_id :
  rooms_inv rooms ->
  (forall r, rooms !! room_id = Some r -> peer_is (slot r role) peer_id = false) ->
  unregister_peer rooms room_id role peer_id = rooms.
Proof.
  intros Hinv Hstale. unfold unregister_peer.
  destruct (rooms !! room_id) as [r|] eqn:Hr; [|reflexivity].
  specialize (Hstale r eq_refl). pose proof (Hinv _ _ Hr) as Hne.
  assert (Hsame : match role with
                  | Sender => if peer_is (sender r) peer_id
                              then {| sender := None; receiver := receiver r |} else r
                  | Receiver => if peer_is (receiver r) peer_id
                                then {| sender := sender r; receiver := None |} else r
                  end = r) by (destruct role; simpl in Hstale; rewrite Hstale; reflexivity).
  rewrite Hsame, Hne. apply insert_id. exact Hr.
Qed.

Lemma unregister_stale_witness :
  unregister_peer rooms_one_sender "7ut0b" Sender 9 = rooms_one_sender.
Proof.
  apply unregister_stale.
  - intros k r Hk. unfold rooms_one_sender in Hk.
    apply lookup_singleton_Some in Hk as [_ <-]. reflexivity.
  - intros r Hk. unfold rooms_one_sender in Hk.
    apply lookup_singleton_Some in Hk as [_ <-]. reflexivity.
Defined.

(** In a room both peers joined (sender first), [forward_message] routes
    the sender's messages to the receiver's channel and back. *)
Theorem forward_after_join rooms room_id ps txs pr txr :
  rooms !! room_id = None ->
  let '(ok1, rooms1) := register_peer rooms room_id Sender ps txs in
  let '(ok2, rooms2) := register_peer rooms1 room_id Receiver pr txr in
  ok1 = true /\ ok2 = true /\
  forward_message rooms2 room_id Sender = Some txr /\
  forward_message rooms2 room_id Receiver = Some txs.
Proof.
  intros Hr. unfold register_peer at 1. rewrite Hr. simpl.
  unfold register_peer. rewrite lookup_insert_eq. simpl.
  unfold forward_message. rewrite lookup_insert_eq. simpl. auto.
Qed.

Lemma forward_after_join_witness :
  (∅ : gmap string Room) !! "7ut0b" = None /\
  (let '(ok1, rooms1) := register_peer ∅ "7ut0b" Sender 1 1 in
   let '(ok2, rooms2) := register_peer rooms1 "7ut0b" Receiver 2 2 in
   ok1 = true /\ ok2 = true /\
   forward_message rooms2 "7ut0b" Sender = Some 2 /\
   forward_message rooms2 "7ut0b" Receiver = Some 1).
Proof. split; [reflexivity|]. apply forward_after_join. reflexivity. Defined.

(** [signal_connect] changes the state only when the peer is connected:
    an unknown role or a receiver without a [rid] is rejected before the
    upgrade, and a refused registration ([RoomTaken]) leaves the room table
    as it was. *)
Theorem signal_connect_rejected_unchanged room_id role_str rid peer_id peer_tx st o st' :
  signal_connect room_id role_str rid peer_id peer_tx st = (o, st') -> o <> Connected ->
  st' = st.
Proof.
  unfold signal_connect. intros Heq Hnc.
  destruct (Role_parse role_str) as [role|]; [|congruence].
  assert (Hreg : forall ok rooms',
             register_peer (signal_rooms st) room_id role peer_id peer_tx = (ok, rooms') ->
             ok = false -> rooms' = signal_rooms st).
  { intros ok rooms' Hrp Hf. subst ok. unfold register_peer in Hrp.
    destruct (signal_rooms st !! room_id) as [r|] eqn:Hr; simpl in Hrp.
    - destruct role, (sender r), (receiver r); simpl in Hrp; inversion Hrp;
        subst; (apply insert_id; exact Hr) || discriminate.
    - destruct role; simpl in Hrp; discriminate. }
  destruct role, (String.eqb (default "" rid) "");
    try (injection Heq as <- <-; reflexivity);
    (destruct (register_peer _ _ _ _ _) as [ok rooms'] eqn:Hrp;
     destruct ok; [destruct rid; injection Heq as <- <-; congruence|];
     injection Heq as <- <-; rewrite (Hreg false rooms' eq_refl eq_refl); destruct st; reflexivity).
Qed.

Lemma signal_connect_rejected_unchanged_witness :
  signal_connect "7ut0b" "sender" None 2 2
    (set_signal_rooms st_issued rooms_one_sender) =
  (RoomTaken, set_signal_rooms st_issued rooms_one_sender).
Proof.
  pose proof (signal_connect_rejected_unchanged "7ut0b" "sender" None 2 2
    (set_signal_rooms st_issued rooms_one_sender) RoomTaken
    (signal_connect "7ut0b" "sender" None 2 2 (set_signal_rooms st_issued rooms_one_sender)).2)
    as H.
  assert (Ho : (signal_connect "7ut0b" "sender" None 2 2
                 (set_signal_rooms st_issued rooms_one_sender)).1 = RoomTaken)
    by (vm_compute; reflexivity).
  rewrite <- H at 2; [rewrite <- Ho; apply surjective_pairing | |discriminate].
  rewrite <- Ho. apply surjective_pairing.
Defined.

(** A receiver that joins a free room for an idle, unfinished transfer and
    then leaves restores the whole state: its room slot is freed, and the
    entry goes back to not in use with an empty [used_by]. *)
Theorem receiver_join_leave room_id r peer_id peer_tx st st1 :
  rooms_inv st.(signal_rooms) ->
  match st.(meta_db) !! room_id with
  | Some e => e.(value).(is_using) = false /\ e.(value).(used_by) = "" /\ e.(value).(done) = false
  | None => True
  end ->
  signal_connect room_id "receiver" (Some r) peer_id peer_tx st = (Connected, st1) ->
  signal_disconnect room_id Receiver peer_id st1 = st.
Proof.
  intros Hinv Hmeta Hc. unfold signal_connect in Hc. cbn [Role_parse String.eqb] in Hc.
  change (Role_parse "receiver") with (Some Receiver) in Hc. cbv iota in Hc.
  destruct (String.eqb (default "" (Some r)) "") eqn:Hre; [discriminate|].
  destruct (register_peer (signal_rooms st) room_id Receiver peer_id peer_tx)
    as [ok rooms'] eqn:Hrp.
  destruct ok; [|discriminate]. injection Hc as <-.
  assert (Hfree : slot (default Room_default (signal_rooms st !! room_id)) Receiver = None).
  { unfold register_peer in Hrp. simpl.
    destruct (receiver (default Room_default (signal_rooms st !! room_id))); [|reflexivity].
    discriminate. }
  destruct (register_then_unregister _ room_id Receiver peer_id peer_tx Hinv Hfree)
    as [_ Hround].
  rewrite Hrp in Hround. simpl in Hround.
  unfold signal_disconnect, mark_receiver_state, memdb_get. cbn [set_signal_rooms meta_db].
  destruct (meta_db st !! room_id) as [e|] eqn:He.
  - destruct Hmeta as (Hu & Hb & Hd). cbn. rewrite lookup_insert_eq. cbn. rewrite Hd. cbn.
    rewrite Hround. unfold set_meta_db. cbn. rewrite insert_insert_eq.
    assert (Hv : {| is_using := false; used_by := ""; block_size := block_size (value e);
                    file_name := file_name (value e); file_size := file_size (value e);
                    done := false |} = value e).
    { destruct e as [[] ex]; simpl in *; subst; reflexivity. }
    rewrite Hv. destruct e as [v ex]. rewrite insert_id by exact He.
    destruct st; reflexivity.
  - cbn. rewrite He. cbn. rewrite Hround. destruct st; reflexivity.
Qed.

Lemma receiver_join_leave_witness :
  signal_disconnect "7ut0b" Receiver 2
    (signal_connect "7ut0b" "receiver" (Some "r1") 2 2 st_issued).2 = st_issued.
Proof.
  apply (receiver_join_leave "7ut0b" "r1" 2 2 st_issued).
  - intros k r Hk. vm_compute in Hk. discriminate.
  - vm_compute. auto.
  - vm_compute. reflexivity.
Defined.

(** ** MemDB *)

(** An inserted entry survives a later sweep at [t] exactly when [t] is
    before its expiry [now + ttl * 10^9]; the sweep keeps every other key's
    fate as it was. *)
Theorem memdb_sweep_insert {T} (m : gmap string (CacheEntry T)) k v ttl now t k' :
  memdb_sweep (memdb_insert m k v ttl now).1 t !! k' =
    if String.eqb k' k then
      (if t <? now + ttl * 1000000000
       then Some (Build_CacheEntry v (now + ttl * 1000000000)) else None)
    else memdb_sweep m t !! k'.
Proof.
  unfold memdb_sweep, memdb_insert. simpl. rewrite !map_lookup_filter.
  destruct (String.eqb k' k) eqn:Hk.
  - apply String.eqb_eq in Hk. subst. rewrite lookup_insert_eq. simpl.
    destruct (N.ltb_spec t (now + ttl * 1000000000)).
    + rewrite option_guard_True by exact H. reflexivity.
    + rewrite option_guard_False by lia. reflexivity.
  - apply String.eqb_neq in Hk. rewrite lookup_insert_ne by congruence. reflexivity.
Qed.

